(** * crypto-news-app: the browser-side news manager

    A shallow embedding of the two [NewsManager] classes of the repository:
    the category-partitioned one (static/script.js, two lists capped at 5 on
    display) and the unified one (one list capped at 50 in the store).

    Conventions of the embedding.
    - A JavaScript number is an exact integer or NaN ([JSNum]); time values
      are integral milliseconds.
    - A JavaScript string is a Rocq [string] (the UTF-8 bytes of the text);
      splitting on an ASCII separator is the same on bytes as on code units.
    - A method that mutates [this] and may throw is a computation in the
      monad [M St], which threads the manager's state through a throw, as
      the object keeps its fields when an exception unwinds.
    - The page is taken to contain the containers and the stats elements
      the script writes to; a loading indicator, which the script tests
      for, may be absent.  The inner HTML of a container is the structured
      value [Html], and the text of the stats elements is the count and the
      instant they were given.
    - A payload is a list of items of the shape the endpoint documents. *)

From Stdlib Require Import ZArith String Ascii List Lia Bool.
From stdpp Require Import base gmap strings list pretty.

Open Scope string_scope.

(* ================================================================= *)
(** ** Host semantics: numbers, exceptions, strings, dates *)

Module JS.

(** Numbers as the script meets them: differences of time values, their
    floored quotients, and NaN, which every comparison answers with false. *)
Inductive JSNum : Type :=
| NaN
| Num (z : Z).

Definition sub (a b : JSNum) : JSNum :=
  match a, b with
  | Num x, Num y => Num (x - y)
  | _, _ => NaN
  end.

(** [Math.floor(a / d)] for a positive integer constant [d]. *)
Definition floor_div (a : JSNum) (d : Z) : JSNum :=
  match a with
  | Num x => Num (x / d)
  | NaN => NaN
  end.

(** [a < k] *)
Definition lt (a : JSNum) (k : Z) : bool :=
  match a with
  | Num x => (x <? k)%Z
  | NaN => false
  end.

(** The text a template literal interpolates for a number. *)
Definition to_string (a : JSNum) : string :=
  match a with
  | Num x => pretty x
  | NaN => "NaN"
  end.

Inductive JSError : Type :=
| TypeError
| SyntaxError
| NetworkError
| HttpError (status : Z).

(** The completion of a call: a value, or a thrown exception. *)
Inductive Completion (A : Type) : Type :=
| Normal (a : A)
| Throw (e : JSError).
Arguments Normal {A} a.
Arguments Throw {A} e.

#[global] Instance Completion_ret : MRet Completion := fun A a => Normal a.
#[global] Instance Completion_bind : MBind Completion := fun A B f m =>
  match m with
  | Normal a => f a
  | Throw e => Throw e
  end.

(** [try { m } catch (e) { h e }] on a pure computation. *)
Definition catch {A} (m : Completion A) (h : JSError -> Completion A)
  : Completion A :=
  match m with
  | Normal a => Normal a
  | Throw e => h e
  end.

(** [l.map(f)] where the callback may throw: the first throw ends the map. *)
Fixpoint map_indexed {A B} (f : A -> nat -> Completion B) (i : nat)
  (l : list A) : Completion (list B) :=
  match l with
  | [] => Normal []
  | x :: r =>
      match f x i with
      | Throw e => Throw e
      | Normal y =>
          match map_indexed f (S i) r with
          | Throw e => Throw e
          | Normal ys => Normal (y :: ys)
          end
      end
  end.

(** Stateful methods: the state survives a throw. *)
Definition M (St A : Type) : Type := St -> Completion A * St.

#[global] Instance M_ret {St} : MRet (M St) := fun A a st => (Normal a, st).
#[global] Instance M_bind {St} : MBind (M St) := fun A B f m st =>
  match m st with
  | (Normal a, st') => f a st'
  | (Throw e, st') => (Throw e, st')
  end.

Definition get {St} : M St St := fun st => (Normal st, st).
Definition modify {St} (f : St -> St) : M St unit := fun st => (Normal tt, f st).
Definition lift {St A} (c : Completion A) : M St A := fun st => (c, st).

(** [try { body } catch (e) { handler } finally { final }] *)
Definition try_catch_finally {St} (body : M St unit)
  (handler : JSError -> M St unit) (final : M St unit) : M St unit :=
  fun st =>
    match body st with
    | (Normal _, st1) => final st1
    | (Throw e, st1) =>
        match handler e st1 with
        | (Normal _, st2) => final st2
        | (Throw e', st2) =>
            match final st2 with
            | (Normal _, st3) => (Throw e', st3)
            | (Throw e'', st3) => (Throw e'', st3)
            end
        end
    end.

(** *** Strings *)

(** [s.split(sep)] for a one-character separator: never empty. *)
Fixpoint split (sep : ascii) (s : string) : list string :=
  match s with
  | EmptyString => [EmptyString]
  | String c r =>
      if Ascii.eqb c sep then EmptyString :: split sep r
      else match split sep r with
           | h :: t => String c h :: t
           | [] => [String c EmptyString]
           end
  end.

Definition is_digit (c : ascii) : bool :=
  (48 <=? nat_of_ascii c)%nat && (nat_of_ascii c <=? 57)%nat.

Fixpoint digits_value (acc : Z) (s : string) : option Z :=
  match s with
  | EmptyString => Some acc
  | String c r =>
      if is_digit c
      then digits_value (10 * acc + (Z.of_nat (nat_of_ascii c) - 48)) r
      else None
  end.

(** [Number(s)] on the spellings the server's format contains: the empty
    string is 0 and a string of decimal digits is its value.  Any other
    spelling is taken to NaN; no statement below depends on that choice. *)
Definition Number (s : string) : JSNum :=
  match digits_value 0 s with
  | Some z => Num z
  | None => NaN
  end.

(** Array destructuring [const [a, b, c] = parts]: a missing position is
    [undefined]. *)
Definition nth_part {A} (l : list A) (i : nat) : option A := l !! i.

(** A numeric position of a destructured [map(Number)] result, as the
    [Date] constructor reads it: [undefined] converts to NaN. *)
Definition nth_number (l : list JSNum) (i : nat) : JSNum :=
  match l !! i with
  | Some n => n
  | None => NaN
  end.

(** *** Dates (ECMAScript, Date objects) *)

Definition msPerDay : Z := 86400000.

(** Day number of the civil date [y]-[m]-[d], [m] in 1..12, day 0 being
    1970-01-01 (proleptic Gregorian calendar). *)
Definition days_from_civil (y m d : Z) : Z :=
  let y' := if (m <=? 2)%Z then (y - 1)%Z else y in
  let era := (y' / 400)%Z in
  let yoe := (y' - era * 400)%Z in
  let mp := if (m <=? 2)%Z then (m + 9)%Z else (m - 3)%Z in
  let doy := ((153 * mp + 2) / 5 + d - 1)%Z in
  let doe := (yoe * 365 + yoe / 4 - yoe / 100 + doy)%Z in
  (era * 146097 + doe - 719468)%Z.

(** [MakeDay(year, month, date)] with a zero-based month; months outside
    0..11 carry into the year and days outside the month carry on. *)
Definition MakeDay (year month date : Z) : Z :=
  let ym := (year + month / 12)%Z in
  let mn := (month mod 12)%Z in
  (days_from_civil ym (mn + 1) 1 + date - 1)%Z.

Definition MakeTime (hour min sec ms : Z) : Z :=
  (hour * 3600000 + min * 60000 + sec * 1000 + ms)%Z.

Definition MakeDate (day time : Z) : Z := (day * msPerDay + time)%Z.

(** A two-digit year is a year of the 1900s. *)
Definition MakeFullYear (y : Z) : Z :=
  if ((0 <=? y) && (y <=? 99))%Z then (1900 + y)%Z else y.

Definition TimeClip (t : Z) : JSNum :=
  if (Z.abs t <=? 8640000000000000)%Z then Num t else NaN.

(** The wall-clock reading the six fields denote, in local milliseconds. *)
Definition local_time_of_fields (year month date hour min sec : Z) : Z :=
  MakeDate (MakeDay (MakeFullYear year) month date) (MakeTime hour min sec 0).

(** [new Date(year, month, date, hour, min, sec)]: the fields are read as
    local time; [tza] is the local offset from UTC in milliseconds. *)
Definition Date_of_fields (tza : Z) (year month date hour min sec : JSNum)
  : JSNum :=
  match year, month, date, hour, min, sec with
  | Num y, Num mo, Num d, Num h, Num mi, Num s =>
      TimeClip (local_time_of_fields y mo d h mi s - tza)
  | _, _, _, _, _, _ => NaN
  end.

(** [LocalTime(t)]: what the getters of a Date with time value [t] read. *)
Definition LocalTime (tza : Z) (t : JSNum) : JSNum :=
  match t with
  | Num z => Num (z + tza)
  | NaN => NaN
  end.

End JS.

(* ================================================================= *)
(** ** The data the endpoint delivers *)

Module News.
Import JS.

(** [published] as JSON can carry it: a string, or a native value, which
    arithmetic reads as a number (NaN when it is not one). *)
Inductive Published : Type :=
| PubString (s : string)
| PubNative (t : JSNum).

Record NewsItem : Type := {
  link : string;
  title : string;
  translated_title : option string;
  description : option string;
  translated_description : option string;
  source : string;
  published : Published
}.

(** The parsed body of [GET /api/news]: an object whose fields may be
    absent.  [success] is the truthiness of the flag (absent is false); a
    body that is a JSON primitive other than null has no fields at all. *)
Record Envelope : Type := {
  success : bool;
  news : option (list NewsItem);
  crypto_news : option (list NewsItem);
  general_news : option (list NewsItem)
}.

Inductive Data : Type :=
| JNull
| JObject (e : Envelope).

(** What [fetch] hands back: [response.json()] parses the body or rejects
    with a SyntaxError. *)
Record Response : Type := {
  ok : bool;
  status : Z;
  json : Completion Data
}.

Inductive FetchOutcome : Type :=
| Rejected
| Resolved (r : Response).

(** [response = await fetch('/api/news')] *)
Definition await_fetch (o : FetchOutcome) : Completion Response :=
  match o with
  | Rejected => Throw NetworkError
  | Resolved r => Normal r
  end.

(** [data.success]: reading a property of null throws. *)
Definition get_success (d : Data) : Completion bool :=
  match d with
  | JNull => Throw TypeError
  | JObject e => Normal (success e)
  end.

(** The inner HTML of a container. *)
Inductive Html (R : Type) : Type :=
| InitialMarkup
| NoNewsMessage
| ErrorMessage
| NewsItems (items : list R).
Arguments InitialMarkup {R}.
Arguments NoNewsMessage {R}.
Arguments ErrorMessage {R}.
Arguments NewsItems {R} items.

(** Truthiness of an optional string: absent and empty are both falsy. *)
Definition truthy (s : option string) : bool :=
  match s with
  | Some (String _ _) => true
  | _ => false
  end.

(** [a || b] on optional strings. *)
Definition or_else (a b : option string) : option string :=
  if truthy a then a else b.

(** [style.display] of a loading indicator the page may lack. *)
Definition set_display (show : bool) (el : option string) : option string :=
  match el with
  | Some _ => Some (if show then "flex" else "none")
  | None => None
  end.

Definition is_space (c : ascii) : bool :=
  match nat_of_ascii c with
  | 9%nat | 10%nat | 11%nat | 12%nat | 13%nat | 32%nat => true
  | _ => false
  end.

Fixpoint trim_start (s : string) : string :=
  match s with
  | EmptyString => EmptyString
  | String c r => if is_space c then trim_start r else s
  end.

Fixpoint trim_end (s : string) : string :=
  match s with
  | EmptyString => EmptyString
  | String c r =>
      match trim_end r with
      | EmptyString => if is_space c then EmptyString else String c EmptyString
      | r' => String c r'
      end
  end.

(** [s.trim()] on ASCII white space. *)
Definition trim (s : string) : string := trim_end (trim_start s).

End News.

(* ================================================================= *)
(** ** The scheduler: [startNewsCollection] on the host's event loop *)

Module Scheduler.
Import JS News.

(** What the event loop can deliver to the manager once
    [startNewsCollection] has been called: a firing of the interval timer,
    or the settling of the fetch a cycle is suspended on. *)
Inductive Event : Type :=
| Tick
| Settle (id : nat) (o : FetchOutcome) (now : Z).

Section Loop.

Context {St : Type}.

(** A cycle runs in two synchronous pieces around its [await]. *)
Variable cycle_begin : St -> St.
Variable cycle_resume : FetchOutcome -> Z -> M St unit.

(** [outstanding] lists the cycles suspended on their fetch, by the order
    in which they were started; cycle 0 is the one [startNewsCollection]
    awaits before it calls [setInterval]. *)
Record Loop : Type := {
  manager : St;
  outstanding : list nat;
  started : nat;
  timer : bool
}.

(** [startNewsCollection()], up to its first suspension. *)
Definition startNewsCollection (st : St) : Loop :=
  {| manager := cycle_begin st;
     outstanding := [0%nat];
     started := 1;
     timer := false |}.

(** The interval callback: it calls [collectAndDisplayNews] whatever the
    state of earlier cycles. *)
Definition on_tick (l : Loop) : Loop :=
  {| manager := cycle_begin (manager l);
     outstanding := outstanding l ++ [started l];
     started := S (started l);
     timer := timer l |}.

(** A fetch settles: the suspended cycle runs to its end.  When it is
    cycle 0 and it ends normally, [startNewsCollection] goes on to
    [setInterval]. *)
Definition on_settle (id : nat) (o : FetchOutcome) (now : Z) (l : Loop) : Loop :=
  let '(c, st) := cycle_resume o now (manager l) in
  {| manager := st;
     outstanding := filter (λ j, j ≠ id) (outstanding l);
     started := started l;
     timer :=
       match c with
       | Normal _ => timer l || (id =? 0)%nat
       | Throw _ => timer l
       end |}.

(** An event the loop cannot deliver in state [l] has no successor. *)
Definition step (l : Loop) (e : Event) : option Loop :=
  match e with
  | Tick => if timer l then Some (on_tick l) else None
  | Settle id o now =>
      if bool_decide (id ∈ outstanding l) then Some (on_settle id o now l)
      else None
  end.

Fixpoint run (l : Loop) (tr : list Event) : option Loop :=
  match tr with
  | [] => Some l
  | e :: r =>
      match step l e with
      | Some l' => run l' r
      | None => None
      end
  end.

(** A trace on which the timer never fires while a cycle is suspended:
    every fetch settles before the next tick. *)
Fixpoint paced (l : Loop) (tr : list Event) : Prop :=
  match tr with
  | [] => True
  | e :: r =>
      (e = Tick → outstanding l = []) ∧
      match step l e with
      | Some l' => paced l' r
      | None => True
      end
  end.

End Loop.

End Scheduler.

(* ================================================================= *)
(** ** The unified variant: one list, capped at 50 in the store *)

Module Unified.
Import JS News.

Definition maxNewsCount : nat := 50.
Definition updateInterval : Z := 30000.

(** The values one item's template interpolates. *)
Record Rendered : Type := {
  r_new : bool;
  r_link : string;
  r_time : string;
  r_title : string;
  r_original : option string;
  r_description : option string;
  r_source : string
}.

Record State : Type := {
  newsList : list NewsItem;
  sentNewsLinks : gset string;
  newsContainer : Html Rendered;
  loadingIndicator : option string;
  totalNews : option nat;
  lastUpdate : option Z
}.

Definition set_newsList (l : list NewsItem) (st : State) : State :=
  {| newsList := l; sentNewsLinks := sentNewsLinks st;
     newsContainer := newsContainer st;
     loadingIndicator := loadingIndicator st;
     totalNews := totalNews st; lastUpdate := lastUpdate st |}.

Definition set_sentNewsLinks (s : gset string) (st : State) : State :=
  {| newsList := newsList st; sentNewsLinks := s;
     newsContainer := newsContainer st;
     loadingIndicator := loadingIndicator st;
     totalNews := totalNews st; lastUpdate := lastUpdate st |}.

Definition set_newsContainer (h : Html Rendered) (st : State) : State :=
  {| newsList := newsList st; sentNewsLinks := sentNewsLinks st;
     newsContainer := h;
     loadingIndicator := loadingIndicator st;
     totalNews := totalNews st; lastUpdate := lastUpdate st |}.

Definition set_loadingIndicator (d : option string) (st : State) : State :=
  {| newsList := newsList st; sentNewsLinks := sentNewsLinks st;
     newsContainer := newsContainer st;
     loadingIndicator := d;
     totalNews := totalNews st; lastUpdate := lastUpdate st |}.

Definition set_stats (n : nat) (t : Z) (st : State) : State :=
  {| newsList := newsList st; sentNewsLinks := sentNewsLinks st;
     newsContainer := newsContainer st;
     loadingIndicator := loadingIndicator st;
     totalNews := Some n; lastUpdate := Some t |}.

(** The manager as its constructor leaves it, on a page whose loading
    indicator is [loading] (absent when [None]). *)
Definition constructor (loading : option string) : State :=
  {| newsList := []; sentNewsLinks := ∅;
     newsContainer := InitialMarkup;
     loadingIndicator := loading;
     totalNews := None; lastUpdate := None |}.

Section WithHost.

(** [Date.parse] of the host, whose reading of a string that is not in the
    ISO format is its own. *)
Variable DateParse : string -> JSNum.

(** [new Date(published)] *)
Definition newsTime_of (published : Published) : JSNum :=
  match published with
  | PubString s => DateParse s
  | PubNative NaN => NaN
  | PubNative (Num t) => TimeClip t
  end.

Definition getTimeAgo (now : Z) (published : Published) : string :=
  let newsTime := newsTime_of published in
  let diffMs := sub (Num now) newsTime in
  let diffMins := floor_div diffMs 60000 in
  if lt diffMins 1 then "방금"
  else if lt diffMins 60 then to_string diffMins +:+ "분 전"
  else
    let diffHours := floor_div diffMins 60 in
    if lt diffHours 24 then to_string diffHours +:+ "시간 전"
    else
      let diffDays := floor_div diffHours 24 in
      to_string diffDays +:+ "일 전".

Definition fetchNewsFromCollector (o : FetchOutcome)
  : Completion (list NewsItem) :=
  catch
    (response ← await_fetch o;
     if negb (ok response) then Throw (HttpError (status response))
     else
       data ← json response;
       flag ← get_success data;
       match data with
       | JObject e =>
           match flag, news e with
           | true, Some l => Normal l
           | _, _ => Normal []
           end
       | JNull => Normal []
       end)
    (fun _ => Normal []).

Definition showLoading (show : bool) : M State unit :=
  modify (fun st => set_loadingIndicator (set_display show (loadingIndicator st)) st).

Definition showNoNewsMessage : M State unit :=
  modify (set_newsContainer NoNewsMessage).

Definition showErrorMessage : M State unit :=
  modify (set_newsContainer ErrorMessage).

Definition updateStats (now : Z) : M State unit :=
  modify (fun st => set_stats (length (newsList st)) now st).

Definition renderItem (now : Z) (index : nat) (n : NewsItem) : Rendered :=
  let showOriginalTitle :=
    truthy (Some (title n)) && truthy (translated_title n) &&
    negb (String.eqb (trim (title n))
            (trim (default EmptyString (translated_title n)))) in
  {| r_new := (index <? 3)%nat;
     r_link := link n;
     r_time := getTimeAgo now (published n);
     r_title := default (title n) (or_else (translated_title n) (Some (title n)));
     r_original := if showOriginalTitle then Some (title n) else None;
     r_description :=
       if truthy (or_else (translated_description n) (description n))
       then or_else (translated_description n) (description n)
       else None;
     r_source := source n |}.

Definition displayNews (now : Z) : M State unit :=
  st ← get;
  if (length (newsList st) =? 0)%nat then showNoNewsMessage
  else modify (set_newsContainer (NewsItems (imap (renderItem now) (newsList st)))).

(** The part of a cycle that runs once the fetch has settled with [o]. *)
Definition update_and_render (o : FetchOutcome) (now : Z) : M State unit :=
  newNews ← lift (fetchNewsFromCollector o);
  if (0 <? length newNews)%nat then
    modify (set_newsList newNews);;
    modify (fun st =>
      set_sentNewsLinks
        (foldl (fun seen n => {[ link n ]} ∪ seen) (sentNewsLinks st) newNews)
        st);;
    st ← get;
    (if (maxNewsCount <? length (newsList st))%nat
     then modify (set_newsList (take maxNewsCount (newsList st)))
     else mret tt);;
    displayNews now;;
    updateStats now
  else
    st ← get;
    if (length (newsList st) =? 0)%nat then showNoNewsMessage
    else displayNews now;; updateStats now.

(** One fetch-merge-render cycle, the fetch settling with [o] while the
    clock reads [now]. *)
Definition collectAndDisplayNews (o : FetchOutcome) (now : Z) : M State unit :=
  try_catch_finally
    (showLoading true;; update_and_render o now)
    (fun _ => showErrorMessage)
    (showLoading false).

(** The state a cycle leaves. *)
Definition cycle (o : FetchOutcome) (now : Z) (st : State) : State :=
  snd (collectAndDisplayNews o now st).

(** The two halves of a cycle around its one suspension point, the
    [await] of the fetch: what runs when the cycle is started, and what
    runs when the fetch settles. *)
Definition cycle_begin (st : State) : State :=
  snd (showLoading true st).

Definition cycle_resume (o : FetchOutcome) (now : Z) : M State unit :=
  try_catch_finally (update_and_render o now)
    (fun _ => showErrorMessage) (showLoading false).

(** [startNewsCollection()] on a manager in state [st]. *)
Definition startNewsCollection (st : State) : Scheduler.Loop :=
  Scheduler.startNewsCollection cycle_begin st.

Definition step := Scheduler.step cycle_begin cycle_resume.
Definition run := Scheduler.run cycle_begin cycle_resume.
Definition paced := Scheduler.paced cycle_begin cycle_resume.

End WithHost.

End Unified.

(* ================================================================= *)
(** ** The partitioned variant: two lists, capped at 5 on display *)

Module Partitioned.
Import JS News.

Definition maxNewsCount : nat := 5.
Definition updateInterval : Z := 30000.

Record Rendered : Type := {
  r_new : bool;
  r_link : string;
  r_title : string;
  r_time : string
}.

Record State : Type := {
  cryptoNewsList : list NewsItem;
  generalNewsList : list NewsItem;
  sentNewsLinks : gset string;
  generalNewsContainer : Html Rendered;
  cryptoNewsContainer : Html Rendered;
  generalLoadingIndicator : option string;
  cryptoLoadingIndicator : option string;
  totalNews : option nat;
  lastUpdate : option Z
}.

Definition set_cryptoNewsList (l : list NewsItem) (st : State) : State :=
  {| cryptoNewsList := l; generalNewsList := generalNewsList st;
     sentNewsLinks := sentNewsLinks st;
     generalNewsContainer := generalNewsContainer st;
     cryptoNewsContainer := cryptoNewsContainer st;
     generalLoadingIndicator := generalLoadingIndicator st;
     cryptoLoadingIndicator := cryptoLoadingIndicator st;
     totalNews := totalNews st; lastUpdate := lastUpdate st |}.

Definition set_generalNewsList (l : list NewsItem) (st : State) : State :=
  {| cryptoNewsList := cryptoNewsList st; generalNewsList := l;
     sentNewsLinks := sentNewsLinks st;
     generalNewsContainer := generalNewsContainer st;
     cryptoNewsContainer := cryptoNewsContainer st;
     generalLoadingIndicator := generalLoadingIndicator st;
     cryptoLoadingIndicator := cryptoLoadingIndicator st;
     totalNews := totalNews st; lastUpdate := lastUpdate st |}.

Definition set_generalNewsContainer (h : Html Rendered) (st : State) : State :=
  {| cryptoNewsList := cryptoNewsList st; generalNewsList := generalNewsList st;
     sentNewsLinks := sentNewsLinks st;
     generalNewsContainer := h;
     cryptoNewsContainer := cryptoNewsContainer st;
     generalLoadingIndicator := generalLoadingIndicator st;
     cryptoLoadingIndicator := cryptoLoadingIndicator st;
     totalNews := totalNews st; lastUpdate := lastUpdate st |}.

Definition set_cryptoNewsContainer (h : Html Rendered) (st : State) : State :=
  {| cryptoNewsList := cryptoNewsList st; generalNewsList := generalNewsList st;
     sentNewsLinks := sentNewsLinks st;
     generalNewsContainer := generalNewsContainer st;
     cryptoNewsContainer := h;
     generalLoadingIndicator := generalLoadingIndicator st;
     cryptoLoadingIndicator := cryptoLoadingIndicator st;
     totalNews := totalNews st; lastUpdate := lastUpdate st |}.

Definition set_loadingIndicators (g c : option string) (st : State) : State :=
  {| cryptoNewsList := cryptoNewsList st; generalNewsList := generalNewsList st;
     sentNewsLinks := sentNewsLinks st;
     generalNewsContainer := generalNewsContainer st;
     cryptoNewsContainer := cryptoNewsContainer st;
     generalLoadingIndicator := g;
     cryptoLoadingIndicator := c;
     totalNews := totalNews st; lastUpdate := lastUpdate st |}.

Definition set_stats (n : nat) (t : Z) (st : State) : State :=
  {| cryptoNewsList := cryptoNewsList st; generalNewsList := generalNewsList st;
     sentNewsLinks := sentNewsLinks st;
     generalNewsContainer := generalNewsContainer st;
     cryptoNewsContainer := cryptoNewsContainer st;
     generalLoadingIndicator := generalLoadingIndicator st;
     cryptoLoadingIndicator := cryptoLoadingIndicator st;
     totalNews := Some n; lastUpdate := Some t |}.

(** The manager as its constructor leaves it, on a page with the two
    loading indicators [gl] and [cl] (absent when [None]). *)
Definition constructor (gl cl : option string) : State :=
  {| cryptoNewsList := []; generalNewsList := [];
     sentNewsLinks := ∅;
     generalNewsContainer := InitialMarkup;
     cryptoNewsContainer := InitialMarkup;
     generalLoadingIndicator := gl;
     cryptoLoadingIndicator := cl;
     totalNews := None; lastUpdate := None |}.

Section WithHost.

(** The offset of local time from UTC, in milliseconds (the script's
    comments take the page to run on Korean time, which has no daylight
    saving: the offset is one constant). *)
Variable LocalTZA : Z.

(** [part.split(sep).map(Number)] on a part that destructuring may have left
    [undefined]: calling [split] on [undefined] throws. *)
Definition numbers_of (sep : ascii) (part : option string)
  : Completion (list JSNum) :=
  match part with
  | Some p => Normal (map Number (split sep p))
  | None => Throw TypeError
  end.

(** The value [newsTime] is bound to: the Date built from the fields of a
    string, or the native value as it is. *)
Definition newsTime_of (published : Published) : Completion JSNum :=
  match published with
  | PubString s =>
      let parts := split " " s in
      let datePart := nth_part parts 0 in
      let timePart := nth_part parts 1 in
      ymd ← numbers_of "-" datePart;
      hms ← numbers_of ":" timePart;
      let year := nth_number ymd 0 in
      let month := nth_number ymd 1 in
      let day := nth_number ymd 2 in
      let hour := nth_number hms 0 in
      let minute := nth_number hms 1 in
      let second := nth_number hms 2 in
      Normal (Date_of_fields LocalTZA year (sub month (Num 1)) day
                hour minute second)
  | PubNative t => Normal t
  end.

Definition getTimeAgo (now : Z) (published : Published) : Completion string :=
  newsTime ← newsTime_of published;
  let diffMs := sub (Num now) newsTime in
  let diffSeconds := floor_div diffMs 1000 in
  let diffMins := floor_div diffSeconds 60 in
  if lt diffMins 1 then Normal "방금"
  else if lt diffMins 60 then Normal (to_string diffMins +:+ "분 전")
  else
    let diffHours := floor_div diffMins 60 in
    if lt diffHours 24 then Normal (to_string diffHours +:+ "시간 전")
    else
      let diffDays := floor_div diffHours 24 in
      Normal (to_string diffDays +:+ "일 전").

(** Returns the whole envelope, or [null] ([None]). *)
Definition fetchNewsFromCollector (o : FetchOutcome)
  : Completion (option Envelope) :=
  catch
    (response ← await_fetch o;
     if negb (ok response) then Throw (HttpError (status response))
     else
       data ← json response;
       flag ← get_success data;
       match data with
       | JObject e => if flag : bool then Normal (Some e) else Normal None
       | JNull => Normal None
       end)
    (fun _ => Normal None).

Definition showLoading (show : bool) : M State unit :=
  modify (fun st =>
    set_loadingIndicators (set_display show (generalLoadingIndicator st))
      (set_display show (cryptoLoadingIndicator st)) st).

(** The class declares no method of this name: the call
    [this.showNoNewsMessage()] throws a TypeError. *)
Definition showNoNewsMessage : M State unit := lift (Throw TypeError).

Definition showErrorMessage : M State unit :=
  modify (set_generalNewsContainer ErrorMessage);;
  modify (set_cryptoNewsContainer ErrorMessage).

Definition updateStats (now : Z) : M State unit :=
  modify (fun st =>
    set_stats (length (cryptoNewsList st) + length (generalNewsList st)) now st).

Definition renderItem (now : Z) (n : NewsItem) (index : nat)
  : Completion Rendered :=
  timeAgo ← getTimeAgo now (published n);
  Normal {| r_new := (index <? 2)%nat;
            r_link := link n;
            r_title := default (title n)
                         (or_else (translated_title n) (Some (title n)));
            r_time := timeAgo |}.

(** The items a container is given for the list [l]. *)
Definition renderList (now : Z) (l : list NewsItem) : Completion (list Rendered) :=
  map_indexed (renderItem now) 0 l.

Definition displayGeneralNews (now : Z) : M State unit :=
  st ← get;
  let generalNews := take maxNewsCount (generalNewsList st) in
  if (length generalNews =? 0)%nat
  then modify (set_generalNewsContainer NoNewsMessage)
  else
    newsHTML ← lift (renderList now generalNews);
    modify (set_generalNewsContainer (NewsItems newsHTML)).

Definition displayCryptoNews (now : Z) : M State unit :=
  st ← get;
  let cryptoNews := take maxNewsCount (cryptoNewsList st) in
  if (length cryptoNews =? 0)%nat
  then modify (set_cryptoNewsContainer NoNewsMessage)
  else
    newsHTML ← lift (renderList now cryptoNews);
    modify (set_cryptoNewsContainer (NewsItems newsHTML)).

Definition displayNews (now : Z) : M State unit :=
  displayGeneralNews now;;
  displayCryptoNews now.

(** The part of a cycle that runs once the fetch has settled with [o]. *)
Definition update_and_render (o : FetchOutcome) (now : Z) : M State unit :=
  newsData ← lift (fetchNewsFromCollector o);
  match newsData with
  | Some data =>
      modify (set_cryptoNewsList (default [] (crypto_news data)));;
      modify (set_generalNewsList (default [] (general_news data)));;
      displayNews now;;
      updateStats now
  | None =>
      st ← get;
      if ((length (cryptoNewsList st) =? 0)%nat
          && (length (generalNewsList st) =? 0)%nat)%bool
      then showNoNewsMessage
      else displayNews now;; updateStats now
  end.

Definition collectAndDisplayNews (o : FetchOutcome) (now : Z) : M State unit :=
  try_catch_finally
    (showLoading true;; update_and_render o now)
    (fun _ => showErrorMessage)
    (showLoading false).

Definition cycle (o : FetchOutcome) (now : Z) (st : State) : State :=
  snd (collectAndDisplayNews o now st).

Definition cycle_begin (st : State) : State :=
  snd (showLoading true st).

Definition cycle_resume (o : FetchOutcome) (now : Z) : M State unit :=
  try_catch_finally (update_and_render o now)
    (fun _ => showErrorMessage) (showLoading false).

(** [startNewsCollection()] on a manager in state [st]. *)
Definition startNewsCollection (st : State) : Scheduler.Loop :=
  Scheduler.startNewsCollection cycle_begin st.

Definition step := Scheduler.step cycle_begin cycle_resume.
Definition run := Scheduler.run cycle_begin cycle_resume.
Definition paced := Scheduler.paced cycle_begin cycle_resume.

End WithHost.

End Partitioned.

(* ================================================================= *)
(** ** Notions the statements use *)

Import JS News.

(** The relative-time rule as the specification words it: exclusive
    thresholds on the elapsed milliseconds, first match winning. *)
Inductive Label : Type :=
| JustNow
| MinutesAgo (n : Z)
| HoursAgo (n : Z)
| DaysAgo (n : Z).

Definition relativeLabel (elapsed : Z) : Label :=
  if (elapsed <? 60000)%Z then JustNow
  else if (elapsed <? 60 * 60000)%Z then MinutesAgo (elapsed / 60000)
  else if (elapsed <? 24 * 3600000)%Z then HoursAgo (elapsed / 3600000)
  else DaysAgo (elapsed / 86400000).

(** The text of a label in the script's templates: "just now", "N minutes
    ago", "N hours ago" and "N days ago" in the page's language. *)
Definition label_text (l : Label) : string :=
  match l with
  | JustNow => "방금"
  | MinutesAgo n => pretty n +:+ "분 전"
  | HoursAgo n => pretty n +:+ "시간 전"
  | DaysAgo n => pretty n +:+ "일 전"
  end.

Definition tier (l : Label) : nat :=
  match l with
  | JustNow => 0
  | MinutesAgo _ => 1
  | HoursAgo _ => 2
  | DaysAgo _ => 3
  end.

(** The tier of a label, read off its text: the unit in its last seven
    bytes (minutes, the end of hours, days), and "just now" otherwise. *)
Definition text_tier (s : string) : nat :=
  let last := take 7 (reverse (list_ascii_of_string s)) in
  if decide (last = reverse (list_ascii_of_string "분 전")) then 1
  else if decide (last = reverse (list_ascii_of_string "간 전")) then 2
  else if decide (last = reverse (list_ascii_of_string "일 전")) then 3
  else 0.

(** The count a label carries (0 for "just now"). *)
Definition label_count (l : Label) : Z :=
  match l with
  | JustNow => 0
  | MinutesAgo n | HoursAgo n | DaysAgo n => n
  end.

Fixpoint has_char (c : ascii) (s : string) : bool :=
  match s with
  | EmptyString => false
  | String x r => Ascii.eqb x c || has_char c r
  end.

Fixpoint all_digits (s : string) : bool :=
  match s with
  | EmptyString => true
  | String x r => is_digit x && all_digits r
  end.

(** The digits of a field of "YYYY-MM-DD hh:mm:ss": [n] decimal digits. *)
Definition is_field (n : nat) (s : string) : bool :=
  all_digits s && (String.length s =? n)%nat.

(** The value of a field. *)
Definition field_value (s : string) : Z :=
  default 0%Z (digits_value 0 s).

(** A response with a 2xx status whose body parses to the envelope [e]. *)
Definition response_of (e : Envelope) : FetchOutcome :=
  Resolved {| ok := true; status := 200; json := Normal (JObject e) |}.

(** [{success: true, news: l}] *)
Definition unified_payload (l : list NewsItem) : FetchOutcome :=
  response_of {| success := true; news := Some l;
                 crypto_news := None; general_news := None |}.

(** [{success: true, crypto_news: c, general_news: g}] *)
Definition partitioned_payload (c g : list NewsItem) : FetchOutcome :=
  response_of {| success := true; news := None;
                 crypto_news := Some c; general_news := Some g |}.

(** [{success: false}] *)
Definition success_false : FetchOutcome :=
  response_of {| success := false; news := None;
                 crypto_news := None; general_news := None |}.

(** A run of cycles, each with the outcome of its fetch and the reading of
    the clock at its render. *)
Definition unified_cycles (DateParse : string -> JSNum)
  (cs : list (FetchOutcome * Z)) (st : Unified.State) : Unified.State :=
  foldl (fun s c => Unified.cycle DateParse (fst c) (snd c) s) st cs.

Definition partitioned_cycles (tza : Z)
  (cs : list (FetchOutcome * Z)) (st : Partitioned.State) : Partitioned.State :=
  foldl (fun s c => Partitioned.cycle tza (fst c) (snd c) s) st cs.

(** The number of items a container shows. *)
Definition shown {R} (h : Html R) : nat :=
  match h with
  | NewsItems items => length items
  | _ => 0
  end.

(** The stats surface was written by a cycle whose clock read [now]. *)
Definition unified_stats_recomputed (now : Z) (st : Unified.State) : Prop :=
  Unified.totalNews st = Some (length (Unified.newsList st)) ∧
  Unified.lastUpdate st = Some now.

Definition partitioned_stats_recomputed (now : Z) (st : Partitioned.State) : Prop :=
  Partitioned.totalNews st =
    Some (length (Partitioned.cryptoNewsList st) +
          length (Partitioned.generalNewsList st))%nat ∧
  Partitioned.lastUpdate st = Some now.

(** What a partitioned container is given for the rendered items of its
    slice: the category's no-news message when there are none. *)
Definition container_for (items : list Partitioned.Rendered)
  : Html Partitioned.Rendered :=
  if (length items =? 0)%nat then NoNewsMessage else NewsItems items.

(** Until cycle 0 has run to its end the timer does not exist; once it
    exists, cycle 0 is over. *)
Definition first_cycle_alone {St : Type} (l : @Scheduler.Loop St) : Prop :=
  (1 <= Scheduler.started l) ∧
  ((Scheduler.timer l = false ∧
    (Scheduler.outstanding l = [0%nat] ∨ Scheduler.outstanding l = [])) ∨
   (Scheduler.timer l = true ∧ (0%nat ∉ Scheduler.outstanding l))).

(** A sample item and sample hosts for the concrete cases. *)
Definition sample_item (l : string) (p : Published) : NewsItem :=
  {| link := l; title := "Bitcoin rallies"; translated_title := None;
     description := None; translated_description := None;
     source := "feed"; published := p |}.

Definition six_items : list NewsItem :=
  map (fun l => sample_item l (PubString "2025-10-29 00:30:57"))
    ["a"; "b"; "c"; "d"; "e"; "f"].

(** What the unified fetcher hands to the cycle. *)
Definition unified_fetched (o : FetchOutcome) : list NewsItem :=
  match Unified.fetchNewsFromCollector o with
  | Normal l => l
  | Throw _ => []
  end.

(** The seen-link set after the links of [l] have been recorded. *)
Definition record_links (seen : gset string) (l : list NewsItem) : gset string :=
  foldl (fun seen n => {[ link n ]} ∪ seen) seen l.

(** Korean standard time, UTC+9. *)
Definition kst : Z := 32400000.

(** A host whose [Date.parse] rejects every string. *)
Definition parse_nothing (s : string) : JSNum := NaN.

(* ================================================================= *)
(** ** Proof automation *)

(** Runs the monadic glue of the unified methods and reads the fields of
    the records they build. *)
Ltac unfold_unified :=
  repeat (progress
    (unfold mbind, M_bind, get, modify, lift, mret, M_ret,
       Unified.displayNews, Unified.updateStats, Unified.showNoNewsMessage,
       Unified.showLoading, Unified.showErrorMessage;
     cbn [Unified.newsList Unified.sentNewsLinks Unified.newsContainer
          Unified.loadingIndicator Unified.totalNews Unified.lastUpdate
          Unified.set_newsList Unified.set_sentNewsLinks
          Unified.set_newsContainer Unified.set_loadingIndicator
          Unified.set_stats fst snd])).

(** Runs the monadic glue of the partitioned methods that cannot throw and
    reads the fields of the records they build. *)
Ltac unfold_partitioned :=
  repeat (progress
    (unfold mbind, M_bind, get, modify, lift, mret, M_ret,
       Partitioned.updateStats, Partitioned.showLoading,
       Partitioned.showErrorMessage;
     cbn [Partitioned.cryptoNewsList Partitioned.generalNewsList
          Partitioned.sentNewsLinks Partitioned.generalNewsContainer
          Partitioned.cryptoNewsContainer Partitioned.generalLoadingIndicator
          Partitioned.cryptoLoadingIndicator Partitioned.totalNews
          Partitioned.lastUpdate Partitioned.set_cryptoNewsList
          Partitioned.set_generalNewsList Partitioned.set_generalNewsContainer
          Partitioned.set_cryptoNewsContainer Partitioned.set_loadingIndicators
          Partitioned.set_stats fst snd])).

(** Closes a bound on the number of items a state holds or shows. *)
Ltac solve_cap :=
  unfold Partitioned.showErrorMessage, Partitioned.showLoading,
    Partitioned.updateStats, mbind, M_bind, modify;
  cbn; unfold Partitioned.maxNewsCount, Unified.maxNewsCount in *; lia.

(* ================================================================= *)
(** ** The relative-time labels *)

Section TimeAgo.

Local Open Scope Z_scope.

Lemma div_ltb (d c k : Z) : 0 < c -> (d / c <? k) = (d <? c * k).
Proof.
  intros Hc.
  destruct (Z.ltb_spec (d / c) k) as [H|H], (Z.ltb_spec d (c * k)) as [H'|H'];
    try reflexivity; exfalso.
  - apply (Z.div_le_lower_bound d c k Hc) in H'. lia.
  - apply (Z.div_lt_upper_bound d c k Hc) in H'. lia.
Qed.

Lemma relativeLabel_minutes (d : Z) :
  (if lt (Num (d / 60000)) 1 then label_text JustNow
   else if lt (Num (d / 60000)) 60 then to_string (Num (d / 60000)) +:+ "분 전"
   else if lt (Num (d / 60000 / 60)) 24
        then to_string (Num (d / 60000 / 60)) +:+ "시간 전"
        else to_string (Num (d / 60000 / 60 / 24)) +:+ "일 전")
  = label_text (relativeLabel d).
Proof.
  unfold relativeLabel, lt, to_string.
  rewrite !Z.div_div by lia.
  change (60000 * 60) with 3600000. change (3600000 * 24) with 86400000.
  rewrite !div_ltb by lia.
  change (60000 * 1) with 60000. change (60000 * 60) with 3600000.
  change (60 * 60000) with 3600000. change (24 * 3600000) with 86400000.
  change (3600000 * 24) with 86400000.
  destruct (d <? 60000); [reflexivity|].
  destruct (d <? 3600000); [reflexivity|].
  destruct (d <? 86400000); reflexivity.
Qed.

Lemma unified_getTimeAgo_elapsed DateParse now t p :
  Unified.newsTime_of DateParse p = Num t ->
  Unified.getTimeAgo DateParse now p = label_text (relativeLabel (now - t)).
Proof.
  intros Hp. unfold Unified.getTimeAgo. rewrite Hp. cbn [sub floor_div].
  apply relativeLabel_minutes.
Qed.

Lemma partitioned_getTimeAgo_elapsed tza now t p :
  Partitioned.newsTime_of tza p = Normal (Num t) ->
  Partitioned.getTimeAgo tza now p = Normal (label_text (relativeLabel (now - t))).
Proof.
  intros Hp. unfold Partitioned.getTimeAgo. rewrite Hp.
  cbn [mbind Completion_bind sub floor_div].
  rewrite <- (relativeLabel_minutes (now - t)).
  rewrite (Z.div_div (now - t) 1000 60) by lia.
  change (1000 * 60) with 60000.
  repeat match goal with |- context [if ?b then _ else _] => destruct b end;
    reflexivity.
Qed.

Lemma tier_monotone (d1 d2 : Z) :
  d1 <= d2 -> (tier (relativeLabel d1) <= tier (relativeLabel d2))%nat.
Proof.
  intros H. unfold relativeLabel.
  repeat match goal with
         | |- context [?a <? ?b] => destruct (Z.ltb_spec a b)
         end; cbn [tier]; lia.
Qed.

Lemma count_monotone_in_tier (d1 d2 : Z) :
  0 <= d1 <= d2 ->
  tier (relativeLabel d1) = tier (relativeLabel d2) ->
  label_count (relativeLabel d1) <= label_count (relativeLabel d2).
Proof.
  intros H. unfold relativeLabel.
  repeat match goal with
         | |- context [?a <? ?b] => destruct (Z.ltb_spec a b)
         end; cbn [tier label_count]; intros E; try discriminate; try lia;
    apply Z.div_le_mono; lia.
Qed.

Lemma unified_getTimeAgo_after DateParse t p e :
  Unified.newsTime_of DateParse p = Num t ->
  Unified.getTimeAgo DateParse (t + e) p = label_text (relativeLabel e).
Proof.
  intros Hp. rewrite (unified_getTimeAgo_elapsed _ _ t) by exact Hp.
  f_equal. f_equal. lia.
Qed.

Lemma partitioned_getTimeAgo_after tza t p e :
  Partitioned.newsTime_of tza p = Normal (Num t) ->
  Partitioned.getTimeAgo tza (t + e) p = Normal (label_text (relativeLabel e)).
Proof.
  intros Hp. rewrite (partitioned_getTimeAgo_elapsed _ _ t) by exact Hp.
  do 3 f_equal. lia.
Qed.

Lemma append_cons (c : ascii) (a b : string) :
  String c a +:+ b = String c (a +:+ b).
Proof. reflexivity. Qed.

Lemma list_ascii_of_append (a b : string) :
  list_ascii_of_string (a +:+ b)
  = (list_ascii_of_string a ++ list_ascii_of_string b)%list.
Proof.
  induction a as [|c r IH]; [reflexivity|].
  rewrite append_cons. cbn [list_ascii_of_string]. now rewrite IH.
Qed.

Lemma last_bytes (a : list ascii) (suf : list ascii) :
  length suf = 7%nat -> take 7 (reverse (a ++ suf)) = reverse suf.
Proof.
  intros H. rewrite reverse_app. apply take_app_length'.
  now rewrite length_reverse.
Qed.

(** The text of a label tells its tier. *)
Lemma text_tier_label (l : Label) : text_tier (label_text l) = tier l.
Proof.
  destruct l as [|n|n|n]; [reflexivity| | |];
    unfold text_tier, label_text; rewrite list_ascii_of_append.
  - rewrite last_bytes by reflexivity.
    case_decide; [reflexivity|congruence].
  - change (list_ascii_of_string "시간 전")
      with (list_ascii_of_string "시" ++ list_ascii_of_string "간 전")%list.
    rewrite app_assoc, last_bytes by reflexivity.
    case_decide; [discriminate|]. case_decide; [reflexivity|congruence].
  - rewrite last_bytes by reflexivity.
    case_decide; [discriminate|]. case_decide; [discriminate|].
    case_decide; [reflexivity|congruence].
Qed.

(** C2. For a published instant [t] not later than [now], both variants of
    [getTimeAgo] return the label that the exclusive thresholds choose from
    the elapsed time, first match winning: under one minute "just now",
    under sixty minutes the floored minutes, under twenty-four hours the
    floored hours, otherwise the floored days, with no larger tier.  The six
    boundary cases hold exactly in both variants, and the tier of the
    returned label, read off its text, never decreases as the elapsed time
    grows. *)
Theorem getTimeAgo_thresholds
  (DateParse : string -> JSNum) (tza now t : Z) (pu pp : Published)
  (Hle : t <= now)
  (Hu : Unified.newsTime_of DateParse pu = Num t)
  (Hp : Partitioned.newsTime_of tza pp = Normal (Num t)) :
  (Unified.getTimeAgo DateParse now pu = label_text (relativeLabel (now - t)) ∧
   Partitioned.getTimeAgo tza now pp
     = Normal (label_text (relativeLabel (now - t)))) ∧
  (Unified.getTimeAgo DateParse (t + 59000) pu = "방금" ∧
   Unified.getTimeAgo DateParse (t + 60000) pu = "1분 전" ∧
   Unified.getTimeAgo DateParse (t + 59 * 60000) pu = "59분 전" ∧
   Unified.getTimeAgo DateParse (t + 60 * 60000) pu = "1시간 전" ∧
   Unified.getTimeAgo DateParse (t + (23 * 60 + 59) * 60000) pu = "23시간 전" ∧
   Unified.getTimeAgo DateParse (t + 24 * 60 * 60000) pu = "1일 전") ∧
  (Partitioned.getTimeAgo tza (t + 59000) pp = Normal "방금" ∧
   Partitioned.getTimeAgo tza (t + 60000) pp = Normal "1분 전" ∧
   Partitioned.getTimeAgo tza (t + 59 * 60000) pp = Normal "59분 전" ∧
   Partitioned.getTimeAgo tza (t + 60 * 60000) pp = Normal "1시간 전" ∧
   Partitioned.getTimeAgo tza (t + (23 * 60 + 59) * 60000) pp
     = Normal "23시간 전" ∧
   Partitioned.getTimeAgo tza (t + 24 * 60 * 60000) pp = Normal "1일 전") ∧
  (∀ now1 now2 : Z, t <= now1 -> now1 <= now2 ->
     (text_tier (Unified.getTimeAgo DateParse now1 pu)
      <= text_tier (Unified.getTimeAgo DateParse now2 pu))%nat ∧
     (∃ s1 s2, Partitioned.getTimeAgo tza now1 pp = Normal s1 ∧
               Partitioned.getTimeAgo tza now2 pp = Normal s2 ∧
               (text_tier s1 <= text_tier s2)%nat) ∧
     (tier (relativeLabel (now1 - t)) <= tier (relativeLabel (now2 - t)))%nat).
Proof.
  split; [|split; [|split]].
  - split.
    + apply unified_getTimeAgo_elapsed, Hu.
    + apply partitioned_getTimeAgo_elapsed, Hp.
  - rewrite !(unified_getTimeAgo_after _ t) by exact Hu.
    repeat split; reflexivity.
  - rewrite !(partitioned_getTimeAgo_after _ t) by exact Hp.
    repeat split; reflexivity.
  - intros now1 now2 H1 H2.
    rewrite !(unified_getTimeAgo_elapsed _ _ t) by exact Hu.
    rewrite !(partitioned_getTimeAgo_elapsed _ _ t) by exact Hp.
    assert (Hm : (tier (relativeLabel (now1 - t))
                  <= tier (relativeLabel (now2 - t)))%nat)
      by (apply tier_monotone; lia).
    split; [now rewrite !text_tier_label|]. split; [|exact Hm].
    do 2 eexists. split; [reflexivity|]. split; [reflexivity|].
    now rewrite !text_tier_label.
Qed.

Lemma getTimeAgo_thresholds_witness :
  (0 <= 60000) ∧
  Unified.newsTime_of parse_nothing (PubNative (Num 0)) = Num 0 ∧
  Partitioned.newsTime_of kst (PubString "1970-01-01 09:00:00") = Normal (Num 0) ∧
  Unified.getTimeAgo parse_nothing 60000 (PubNative (Num 0)) = "1분 전" ∧
  Partitioned.getTimeAgo kst 60000 (PubString "1970-01-01 09:00:00")
    = Normal "1분 전".
Proof.
  split; [lia|]. split; [reflexivity|]. split; [reflexivity|].
  exact (proj1 (getTimeAgo_thresholds parse_nothing kst 60000 0
                  (PubNative (Num 0)) (PubString "1970-01-01 09:00:00")
                  ltac:(lia) eq_refl eq_refl)).
Defined.

(** C10. A published instant strictly later than [now] gets the "just
    now" label in both variants: the negative difference floors to a minute
    count below 1, which the first test accepts.  Every label either
    variant returns is one of the four templates; none speaks of the
    future. *)
Theorem getTimeAgo_future
  (DateParse : string -> JSNum) (tza now t : Z) (pu pp : Published)
  (Hlt : now < t)
  (Hu : Unified.newsTime_of DateParse pu = Num t)
  (Hp : Partitioned.newsTime_of tza pp = Normal (Num t)) :
  Unified.getTimeAgo DateParse now pu = "방금" ∧
  Partitioned.getTimeAgo tza now pp = Normal "방금" ∧
  lt (floor_div (sub (Num now) (Num t)) 60000) 1 = true ∧
  lt (floor_div (floor_div (sub (Num now) (Num t)) 1000) 60) 1 = true ∧
  (∀ (now' : Z) (p : Published) (s : string),
     Unified.getTimeAgo DateParse now' p = s ∨
     Partitioned.getTimeAgo tza now' p = Normal s ->
     s = "방금" ∨
     ∃ n : JSNum, s = to_string n +:+ "분 전" ∨
                  s = to_string n +:+ "시간 전" ∨
                  s = to_string n +:+ "일 전").
Proof.
  assert (Hneg : relativeLabel (now - t) = JustNow).
  { unfold relativeLabel. destruct (Z.ltb_spec (now - t) 60000); [reflexivity|lia]. }
  split; [|split; [|split; [|split]]].
  - rewrite (unified_getTimeAgo_elapsed _ _ t) by exact Hu. now rewrite Hneg.
  - rewrite (partitioned_getTimeAgo_elapsed _ _ t) by exact Hp. now rewrite Hneg.
  - cbn [sub floor_div lt]. rewrite div_ltb by lia. apply Z.ltb_lt. lia.
  - cbn [sub floor_div lt]. rewrite Z.div_div by lia. rewrite div_ltb by lia.
    apply Z.ltb_lt. lia.
  - intros now' p s [H|H].
    + subst s. unfold Unified.getTimeAgo.
      repeat match goal with
             | |- context [if ?b then _ else _] => destruct b
             end; eauto.
    + unfold Partitioned.getTimeAgo in H.
      destruct (Partitioned.newsTime_of tza p) as [nt|e];
        cbn [mbind Completion_bind] in H; [|discriminate].
      repeat match type of H with
             | context [if ?b then _ else _] => destruct b
             end; injection H as <-; eauto.
Qed.

Lemma getTimeAgo_future_witness :
  (0 < 5000) ∧
  Unified.getTimeAgo parse_nothing 0 (PubNative (Num 5000)) = "방금" ∧
  Partitioned.getTimeAgo kst 0 (PubString "1970-01-01 09:00:05") = Normal "방금".
Proof.
  split; [lia|].
  pose proof (getTimeAgo_future parse_nothing kst 0 5000
                (PubNative (Num 5000)) (PubString "1970-01-01 09:00:05")
                ltac:(lia) eq_refl eq_refl) as H.
  exact (conj (proj1 H) (proj1 (proj2 H))).
Defined.

End TimeAgo.

(* ================================================================= *)
(** ** The fetcher *)

Section Fetcher.

Lemma unified_fetch_total (o : FetchOutcome) :
  ∃ v, Unified.fetchNewsFromCollector o = Normal v.
Proof.
  unfold Unified.fetchNewsFromCollector, catch.
  match goal with |- ∃ v, match ?m with _ => _ end = _ => destruct m end; eauto.
Qed.

Lemma partitioned_fetch_total (o : FetchOutcome) :
  ∃ v, Partitioned.fetchNewsFromCollector o = Normal v.
Proof.
  unfold Partitioned.fetchNewsFromCollector, catch.
  match goal with |- ∃ v, match ?m with _ => _ end = _ => destruct m end; eauto.
Qed.

(** C5. [fetchNewsFromCollector] always completes normally, whatever the
    host delivers, and it returns the no-data value (the empty list in the
    unified variant, null in the partitioned one) when the request is
    rejected, when the status is not 2xx, when parsing the body throws,
    when the body is null (reading the flag throws), and when the success
    flag is false or absent. *)
Theorem fetchNewsFromCollector_never_throws :
  (∀ o, ∃ v, Unified.fetchNewsFromCollector o = Normal v) ∧
  (∀ o, ∃ v, Partitioned.fetchNewsFromCollector o = Normal v) ∧
  (Unified.fetchNewsFromCollector Rejected = Normal [] ∧
   Partitioned.fetchNewsFromCollector Rejected = Normal None) ∧
  (∀ st body,
     let o := Resolved {| ok := false; status := st; json := body |} in
     Unified.fetchNewsFromCollector o = Normal [] ∧
     Partitioned.fetchNewsFromCollector o = Normal None) ∧
  (∀ okb st e,
     let o := Resolved {| ok := okb; status := st; json := Throw e |} in
     Unified.fetchNewsFromCollector o = Normal [] ∧
     Partitioned.fetchNewsFromCollector o = Normal None) ∧
  (∀ okb st,
     let o := Resolved {| ok := okb; status := st; json := Normal JNull |} in
     Unified.fetchNewsFromCollector o = Normal [] ∧
     Partitioned.fetchNewsFromCollector o = Normal None) ∧
  (∀ okb st n c g,
     let o := Resolved {| ok := okb; status := st;
                          json := Normal (JObject {| success := false;
                                    news := n; crypto_news := c;
                                    general_news := g |}) |} in
     Unified.fetchNewsFromCollector o = Normal [] ∧
     Partitioned.fetchNewsFromCollector o = Normal None).
Proof.
  split; [exact unified_fetch_total|].
  split; [exact partitioned_fetch_total|].
  split; [split; reflexivity|].
  split; [intros st body; split; reflexivity|].
  split; [intros [] st e; split; reflexivity|].
  split; [intros [] st; split; reflexivity|].
  intros [] st n c g; split; reflexivity.
Qed.

End Fetcher.

(* ================================================================= *)
(** ** Parsing the published string (partitioned variant) *)

Section PublishedString.

Lemma split_no_sep (sep : ascii) (s : string) :
  has_char sep s = false -> split sep s = [s].
Proof.
  induction s as [|c r IH]; cbn [has_char split]; [reflexivity|].
  intros H. apply orb_false_iff in H as [Hc Hr].
  rewrite Hc, (IH Hr). reflexivity.
Qed.

Lemma split_app (sep : ascii) (a b : string) :
  has_char sep a = false ->
  split sep (a +:+ String sep b) = a :: split sep b.
Proof.
  induction a as [|c r IH].
  - intros _. change ("" +:+ String sep b) with (String sep b).
    cbn [split]. now rewrite Ascii.eqb_refl.
  - cbn [has_char]. intros H. apply orb_false_iff in H as [Hc Hr].
    rewrite append_cons. cbn [split].
    rewrite Hc, (IH Hr). reflexivity.
Qed.

Lemma has_char_app (c : ascii) (a b : string) :
  has_char c (a +:+ b) = has_char c a || has_char c b.
Proof.
  induction a as [|x r IH]; [reflexivity|].
  rewrite append_cons. cbn [has_char].
  rewrite IH. apply orb_assoc.
Qed.

Lemma digits_no_char (c : ascii) (s : string) :
  is_digit c = false -> all_digits s = true -> has_char c s = false.
Proof.
  intros Hc. induction s as [|x r IH]; cbn [all_digits has_char]; [reflexivity|].
  intros H. apply andb_true_iff in H as [Hx Hr].
  rewrite (IH Hr), orb_false_r.
  destruct (Ascii.eqb_spec x c) as [->|]; [congruence|reflexivity].
Qed.

Lemma digit_range (c : ascii) :
  is_digit c = true -> (0 <= Z.of_nat (nat_of_ascii c) - 48 <= 9)%Z.
Proof.
  unfold is_digit. intros H. apply andb_true_iff in H as [H1 H2].
  apply Nat.leb_le in H1, H2. lia.
Qed.

Lemma digits_value_bounds (s : string) :
  all_digits s = true ->
  ∀ acc : Z, (0 <= acc)%Z ->
  ∃ z, digits_value acc s = Some z ∧
       (acc * 10 ^ Z.of_nat (String.length s) <= z
        < (acc + 1) * 10 ^ Z.of_nat (String.length s))%Z.
Proof.
  induction s as [|c r IH]; intros Hd acc Hacc.
  - exists acc. cbn. split; [reflexivity|lia].
  - cbn [all_digits] in Hd. apply andb_true_iff in Hd as [Hc Hr].
    cbn [digits_value String.length]. rewrite Hc.
    pose proof (digit_range c Hc) as Hrange.
    destruct (IH Hr (10 * acc + (Z.of_nat (nat_of_ascii c) - 48))%Z) as (z & Hz & Hb);
      [lia|].
    exists z. split; [exact Hz|].
    rewrite Nat2Z.inj_succ, Z.pow_succ_r by lia.
    set (p := (10 ^ Z.of_nat (String.length r))%Z) in *.
    assert (0 < p)%Z by (apply Z.pow_pos_nonneg; lia).
    nia.
Qed.

Lemma field_Number (n : nat) (s : string) :
  is_field n s = true ->
  Number s = Num (field_value s) ∧ (0 <= field_value s < 10 ^ Z.of_nat n)%Z.
Proof.
  unfold is_field. intros H. apply andb_true_iff in H as [Hd Hl].
  apply Nat.eqb_eq in Hl. subst n.
  destruct (digits_value_bounds s Hd 0%Z) as (z & Hz & Hb); [lia|].
  unfold Number, field_value. rewrite Hz. cbn. split; [reflexivity|lia].
Qed.

Lemma field_no_char (n : nat) (c : ascii) (s : string) :
  is_digit c = false -> is_field n s = true -> has_char c s = false.
Proof.
  unfold is_field. intros Hc H. apply andb_true_iff in H as [Hd _].
  now apply digits_no_char.
Qed.

Lemma local_time_in_range (y mo d h mi s tza : Z) :
  (0 <= y < 10000 -> 0 <= mo < 100 -> 0 <= d < 100 ->
   0 <= h < 100 -> 0 <= mi < 100 -> 0 <= s < 100 ->
   Z.abs tza <= msPerDay ->
   TimeClip (local_time_of_fields y (mo - 1) d h mi s - tza)
   = Num (local_time_of_fields y (mo - 1) d h mi s - tza))%Z.
Proof.
  intros Hy Hmo Hd Hh Hmi Hs Htza.
  unfold TimeClip.
  match goal with |- (if ?b then _ else _) = _ => destruct b eqn:E end;
    [reflexivity|exfalso].
  apply Z.leb_gt in E. revert E.
  unfold local_time_of_fields, MakeDate, MakeDay, MakeTime, MakeFullYear,
    days_from_civil, msPerDay in *.
  destruct ((0 <=? y) && (y <=? 99))%Z;
    destruct (((mo - 1) mod 12 + 1 <=? 2)%Z);
    Z.div_mod_to_equations; lia.
Qed.

(** C7. A published string "YYYY-MM-DD hh:mm:ss" is split at the space
    into its date and time parts, and [newsTime] is the Date built from the
    six numbers as local wall-clock time: read back in local time it is
    exactly the instant the fields denote, whatever the offset of the zone.
    A native value is bound to [newsTime] as it is.  The unified variant
    has no branch on strings: it hands the value to the Date constructor,
    which keeps a native time value and reads a string as the host's
    [Date.parse] does. *)
Theorem published_string_is_local_time
  (tza : Z) (Y Mo D H Mi S : string)
  (HY : is_field 4 Y = true) (HMo : is_field 2 Mo = true)
  (HD : is_field 2 D = true) (HH : is_field 2 H = true)
  (HMi : is_field 2 Mi = true) (HS : is_field 2 S = true)
  (Htza : (Z.abs tza <= msPerDay)%Z) :
  let date := Y +:+ "-" +:+ Mo +:+ "-" +:+ D in
  let time := H +:+ ":" +:+ Mi +:+ ":" +:+ S in
  let local :=
    local_time_of_fields (field_value Y) (field_value Mo - 1) (field_value D)
      (field_value H) (field_value Mi) (field_value S) in
  split " " (date +:+ " " +:+ time) = [date; time] ∧
  map Number (split "-" date)
    = [Num (field_value Y); Num (field_value Mo); Num (field_value D)] ∧
  map Number (split ":" time)
    = [Num (field_value H); Num (field_value Mi); Num (field_value S)] ∧
  Partitioned.newsTime_of tza (PubString (date +:+ " " +:+ time))
    = Normal (Num (local - tza)) ∧
  LocalTime tza (Num (local - tza)) = Num local ∧
  (∀ t, Partitioned.newsTime_of tza (PubNative t) = Normal t) ∧
  (∀ DateParse t, (Z.abs t <= 8640000000000000)%Z ->
     Unified.newsTime_of DateParse (PubNative (Num t)) = Num t) ∧
  (∀ DateParse s, Unified.newsTime_of DateParse (PubString s) = DateParse s).
Proof.
  intros date time local.
  destruct (field_Number _ _ HY) as [NY BY], (field_Number _ _ HMo) as [NMo BMo],
    (field_Number _ _ HD) as [ND BD], (field_Number _ _ HH) as [NH BH],
    (field_Number _ _ HMi) as [NMi BMi], (field_Number _ _ HS) as [NS BS].
  assert (Hsplit : split " " (date +:+ " " +:+ time) = [date; time]).
  { change (date +:+ " " +:+ time) with (date +:+ String " " time).
    rewrite split_app, split_no_sep; [reflexivity| |].
    - subst time. rewrite !has_char_app.
      rewrite (field_no_char 2 " " H), (field_no_char 2 " " Mi),
        (field_no_char 2 " " S) by (reflexivity || assumption). reflexivity.
    - subst date. rewrite !has_char_app.
      rewrite (field_no_char 4 " " Y), (field_no_char 2 " " Mo),
        (field_no_char 2 " " D) by (reflexivity || assumption). reflexivity. }
  assert (Hdate : map Number (split "-" date)
            = [Num (field_value Y); Num (field_value Mo); Num (field_value D)]).
  { subst date.
    change (Y +:+ "-" +:+ Mo +:+ "-" +:+ D)
      with (Y +:+ String "-" (Mo +:+ String "-" D)).
    rewrite !split_app, split_no_sep
      by (eapply field_no_char; [reflexivity|eassumption]).
    cbn [map]. now rewrite NY, NMo, ND. }
  assert (Htime : map Number (split ":" time)
            = [Num (field_value H); Num (field_value Mi); Num (field_value S)]).
  { subst time.
    change (H +:+ ":" +:+ Mi +:+ ":" +:+ S)
      with (H +:+ String ":" (Mi +:+ String ":" S)).
    rewrite !split_app, split_no_sep
      by (eapply field_no_char; [reflexivity|eassumption]).
    cbn [map]. now rewrite NH, NMi, NS. }
  repeat split; try assumption.
  - unfold Partitioned.newsTime_of. rewrite Hsplit.
    cbn [nth_part lookup list_lookup Partitioned.numbers_of mbind Completion_bind].
    rewrite Hdate, Htime.
    cbn [nth_number lookup list_lookup sub Date_of_fields].
    f_equal. apply local_time_in_range; cbn in *; lia.
  - cbn [LocalTime]. f_equal. lia.
  - intros DateParse t Ht. cbn [Unified.newsTime_of]. unfold TimeClip.
    apply Z.leb_le in Ht. now rewrite Ht.
Qed.

Lemma published_string_is_local_time_witness :
  is_field 4 "2025" = true ∧ is_field 2 "10" = true ∧
  is_field 2 "29" = true ∧ is_field 2 "00" = true ∧
  is_field 2 "30" = true ∧ is_field 2 "57" = true ∧
  (Z.abs kst <= msPerDay)%Z ∧
  Partitioned.newsTime_of kst (PubString "2025-10-29 00:30:57")
    = Normal (Num 1761665457000).
Proof.
  repeat (split; [reflexivity || (vm_compute; discriminate)|]).
  exact (proj1 (proj2 (proj2 (proj2
    (published_string_is_local_time kst "2025" "10" "29" "00" "30" "57"
       eq_refl eq_refl eq_refl eq_refl eq_refl eq_refl
       ltac:(vm_compute; discriminate)))))).
Defined.

End PublishedString.

(* ================================================================= *)
(** ** Rendering in the partitioned variant *)

Section PartitionedRender.

Variable tza : Z.

Lemma partitioned_getTimeAgo_no_space (now : Z) (s : string) :
  has_char " " s = false ->
  Partitioned.getTimeAgo tza now (PubString s) = Throw TypeError.
Proof.
  intros H. unfold Partitioned.getTimeAgo, Partitioned.newsTime_of.
  rewrite (split_no_sep _ _ H). reflexivity.
Qed.

Lemma partitioned_getTimeAgo_throw (now : Z) (p : Published) (e : JSError) :
  Partitioned.getTimeAgo tza now p = Throw e -> e = TypeError.
Proof.
  unfold Partitioned.getTimeAgo, Partitioned.newsTime_of.
  destruct p as [s|t]; cbn [mbind Completion_bind].
  - unfold Partitioned.numbers_of.
    destruct (nth_part (split " " s) 0); cbn [mbind Completion_bind];
      [|intros [= <-]; reflexivity].
    destruct (nth_part (split " " s) 1); cbn [mbind Completion_bind];
      [|intros [= <-]; reflexivity].
    repeat match goal with
           | |- context [if ?b then _ else _] => destruct b
           end; discriminate.
  - repeat match goal with
           | |- context [if ?b then _ else _] => destruct b
           end; discriminate.
Qed.

Lemma partitioned_renderItem_throw now n i e :
  Partitioned.renderItem tza now n i = Throw e ->
  e = TypeError ∧ Partitioned.getTimeAgo tza now (published n) = Throw TypeError.
Proof.
  unfold Partitioned.renderItem.
  destruct (Partitioned.getTimeAgo tza now (published n)) as [s|e'] eqn:E;
    cbn [mbind Completion_bind]; [discriminate|].
  intros [= <-]. apply partitioned_getTimeAgo_throw in E as ->. now split.
Qed.

Lemma map_indexed_length {A B} (f : A -> nat -> Completion B) l :
  ∀ i ys, map_indexed f i l = Normal ys -> length ys = length l.
Proof.
  induction l as [|x r IH]; intros i ys; cbn [map_indexed].
  - now intros [= <-].
  - destruct (f x i); [|discriminate].
    destruct (map_indexed f (S i) r) eqn:E; [|discriminate].
    intros [= <-]. cbn [length]. f_equal. eapply IH, E.
Qed.

Lemma renderList_length now l ys :
  Partitioned.renderList tza now l = Normal ys -> length ys = length l.
Proof. apply map_indexed_length. Qed.

Lemma renderList_throw now l e :
  Partitioned.renderList tza now l = Throw e -> e = TypeError.
Proof.
  unfold Partitioned.renderList. generalize 0%nat.
  induction l as [|x r IH]; intros i; cbn [map_indexed]; [discriminate|].
  destruct (Partitioned.renderItem tza now x i) eqn:E.
  - destruct (map_indexed _ (S i) r) eqn:E'; [discriminate|].
    intros [= <-]. eapply IH, E'.
  - intros [= <-]. now apply partitioned_renderItem_throw in E.
Qed.

Lemma renderList_malformed now l n :
  n ∈ l ->
  Partitioned.getTimeAgo tza now (published n) = Throw TypeError ->
  Partitioned.renderList tza now l = Throw TypeError.
Proof.
  intros Hin Hn.
  destruct (Partitioned.renderList tza now l) as [ys|e] eqn:E;
    [exfalso|now apply renderList_throw in E as ->].
  revert ys E. unfold Partitioned.renderList. generalize 0%nat.
  induction l as [|x r IH]; intros i ys; [now apply elem_of_nil in Hin|].
  cbn [map_indexed].
  apply elem_of_cons in Hin as [<-|Hin].
  - unfold Partitioned.renderItem at 1. rewrite Hn. discriminate.
  - destruct (Partitioned.renderItem tza now x i); [|discriminate].
    destruct (map_indexed _ (S i) r) eqn:E'; [|discriminate].
    intros _. eapply IH; eassumption.
Qed.

Lemma displayGeneralNews_eq now st :
  Partitioned.displayGeneralNews tza now st =
  match Partitioned.renderList tza now
          (take Partitioned.maxNewsCount (Partitioned.generalNewsList st)) with
  | Normal g => (Normal tt, Partitioned.set_generalNewsContainer (container_for g) st)
  | Throw e => (Throw e, st)
  end.
Proof.
  unfold Partitioned.displayGeneralNews, mbind, M_bind, get, lift, modify.
  destruct (take _ _) as [|x r] eqn:E; [reflexivity|].
  cbn [length Nat.eqb].
  destruct (Partitioned.renderList tza now (x :: r)) as [g|e] eqn:R; [|reflexivity].
  apply renderList_length in R. unfold container_for. rewrite R. reflexivity.
Qed.

Lemma displayCryptoNews_eq now st :
  Partitioned.displayCryptoNews tza now st =
  match Partitioned.renderList tza now
          (take Partitioned.maxNewsCount (Partitioned.cryptoNewsList st)) with
  | Normal c => (Normal tt, Partitioned.set_cryptoNewsContainer (container_for c) st)
  | Throw e => (Throw e, st)
  end.
Proof.
  unfold Partitioned.displayCryptoNews, mbind, M_bind, get, lift, modify.
  destruct (take _ _) as [|x r] eqn:E; [reflexivity|].
  cbn [length Nat.eqb].
  destruct (Partitioned.renderList tza now (x :: r)) as [g|e] eqn:R; [|reflexivity].
  apply renderList_length in R. unfold container_for. rewrite R. reflexivity.
Qed.

Lemma displayNews_eq now st :
  Partitioned.displayNews tza now st =
  match Partitioned.renderList tza now
          (take Partitioned.maxNewsCount (Partitioned.generalNewsList st)) with
  | Throw e => (Throw e, st)
  | Normal g =>
      match Partitioned.renderList tza now
              (take Partitioned.maxNewsCount (Partitioned.cryptoNewsList st)) with
      | Throw e =>
          (Throw e, Partitioned.set_generalNewsContainer (container_for g) st)
      | Normal c =>
          (Normal tt,
           Partitioned.set_cryptoNewsContainer (container_for c)
             (Partitioned.set_generalNewsContainer (container_for g) st))
      end
  end.
Proof.
  unfold Partitioned.displayNews, mbind at 1, M_bind at 1.
  rewrite displayGeneralNews_eq.
  destruct (Partitioned.renderList tza now (take _ (Partitioned.generalNewsList st)));
    [|reflexivity].
  rewrite displayCryptoNews_eq. reflexivity.
Qed.

End PartitionedRender.

(* ================================================================= *)
(** ** One cycle of the partitioned variant *)

Section PartitionedCycle.

Variable tza : Z.

(** A cycle, read off the code: the store is replaced when the fetcher
    returns an envelope; the render step is reached unless there is no
    envelope and both lists are empty; a throw on the way ends in the error
    message; the loading indicators are hidden last. *)
Lemma partitioned_cycle_eq o now st :
  Partitioned.cycle tza o now st =
  let st1 := Partitioned.cycle_begin st in
  let finish s := snd (Partitioned.showLoading false s) in
  let failed s := finish (snd (Partitioned.showErrorMessage s)) in
  let render s :=
    match Partitioned.displayNews tza now s with
    | (Normal _, s') => finish (snd (Partitioned.updateStats now s'))
    | (Throw _, s') => failed s'
    end in
  match Partitioned.fetchNewsFromCollector o with
  | Normal (Some data) =>
      render (Partitioned.set_generalNewsList (default [] (general_news data))
                (Partitioned.set_cryptoNewsList (default [] (crypto_news data)) st1))
  | Normal None =>
      if ((length (Partitioned.cryptoNewsList st1) =? 0)%nat
          && (length (Partitioned.generalNewsList st1) =? 0)%nat)%bool
      then failed st1
      else render st1
  | Throw _ => failed st1
  end.
Proof.
  unfold Partitioned.cycle, Partitioned.collectAndDisplayNews, try_catch_finally,
    Partitioned.update_and_render, Partitioned.cycle_begin.
  unfold mbind at 1, M_bind at 1.
  cbn [Partitioned.showLoading modify snd].
  set (st1 := Partitioned.set_loadingIndicators _ _ st).
  unfold mbind at 1, M_bind at 1, lift at 1.
  destruct (Partitioned.fetchNewsFromCollector o) as [[data|]|e]; cbn zeta.
  - unfold mbind, M_bind, modify.
    destruct (Partitioned.displayNews tza now _) as [[[]|e] s']; reflexivity.
  - unfold mbind at 1, M_bind at 1, get at 1.
    destruct ((length (Partitioned.cryptoNewsList st1) =? 0)%nat
              && (length (Partitioned.generalNewsList st1) =? 0)%nat)%bool;
      [reflexivity|].
    unfold mbind, M_bind.
    destruct (Partitioned.displayNews tza now _) as [[[]|e] s']; reflexivity.
  - reflexivity.
Qed.

(** A cycle that receives an envelope. *)
Lemma partitioned_cycle_payload c g now st :
  Partitioned.cycle tza (partitioned_payload c g) now st =
  let st2 := Partitioned.set_generalNewsList g
               (Partitioned.set_cryptoNewsList c (Partitioned.cycle_begin st)) in
  let finish s := snd (Partitioned.showLoading false s) in
  match Partitioned.displayNews tza now st2 with
  | (Normal _, s') => finish (snd (Partitioned.updateStats now s'))
  | (Throw _, s') => finish (snd (Partitioned.showErrorMessage s'))
  end.
Proof. rewrite partitioned_cycle_eq. reflexivity. Qed.

(** C9. In the partitioned variant [getTimeAgo] throws a TypeError on
    every string that contains no space: the time part of the split is
    undefined.  One such timestamp among the items a container would show
    makes the rendering of that list throw, and the cycle that delivered it
    ends with the error message in both containers and the stats as they
    were. *)
Theorem getTimeAgo_throws_without_space
  (now : Z) (s : string) (Hs : has_char " " s = false) :
  Partitioned.getTimeAgo tza now (PubString s) = Throw TypeError ∧
  (∀ st n, published n = PubString s ->
     (n ∈ take Partitioned.maxNewsCount (Partitioned.generalNewsList st) ->
      Partitioned.displayGeneralNews tza now st = (Throw TypeError, st)) ∧
     (n ∈ take Partitioned.maxNewsCount (Partitioned.cryptoNewsList st) ->
      Partitioned.displayCryptoNews tza now st = (Throw TypeError, st))) ∧
  (∀ st c g n, published n = PubString s ->
     n ∈ take Partitioned.maxNewsCount c ∨ n ∈ take Partitioned.maxNewsCount g ->
     let st' := Partitioned.cycle tza (partitioned_payload c g) now st in
     Partitioned.generalNewsContainer st' = ErrorMessage ∧
     Partitioned.cryptoNewsContainer st' = ErrorMessage ∧
     Partitioned.totalNews st' = Partitioned.totalNews st ∧
     Partitioned.lastUpdate st' = Partitioned.lastUpdate st).
Proof.
  pose proof (partitioned_getTimeAgo_no_space tza now s Hs) as Hthrow.
  split; [exact Hthrow|]. split.
  - intros st n Hn. split; intros Hin.
    + rewrite displayGeneralNews_eq.
      rewrite (renderList_malformed tza now _ n Hin); [reflexivity|].
      now rewrite Hn.
    + rewrite displayCryptoNews_eq.
      rewrite (renderList_malformed tza now _ n Hin); [reflexivity|].
      now rewrite Hn.
  - intros st c g n Hn Hin st'. subst st'.
    rewrite partitioned_cycle_payload. cbn zeta.
    rewrite displayNews_eq.
    cbn [Partitioned.generalNewsList Partitioned.cryptoNewsList
           Partitioned.set_generalNewsList Partitioned.set_cryptoNewsList].
    assert (Hn' : Partitioned.getTimeAgo tza now (published n) = Throw TypeError)
      by now rewrite Hn.
    destruct Hin as [Hin|Hin].
    + destruct (Partitioned.renderList tza now (take _ g)) as [rg|e];
        [|repeat split].
      rewrite (renderList_malformed tza now _ n Hin Hn'). repeat split.
    + rewrite (renderList_malformed tza now _ n Hin Hn'). repeat split.
Qed.

End PartitionedCycle.

Lemma getTimeAgo_throws_without_space_witness :
  has_char " " "2025-10-29" = false ∧
  Partitioned.getTimeAgo kst 1761665457000 (PubString "2025-10-29")
    = Throw TypeError.
Proof.
  split; [reflexivity|].
  exact (proj1 (getTimeAgo_throws_without_space kst 1761665457000
                  "2025-10-29" eq_refl)).
Defined.

(* ================================================================= *)
(** ** One cycle of the unified variant *)

Section UnifiedCycle.

Variable DateParse : string -> JSNum.

Lemma unified_fetched_eq o :
  Unified.fetchNewsFromCollector o = Normal (unified_fetched o).
Proof.
  unfold unified_fetched.
  destruct (unified_fetch_total o) as [v ->]. reflexivity.
Qed.

Lemma unified_fetched_payload l : unified_fetched (unified_payload l) = l.
Proof. reflexivity. Qed.

(** A cycle, read off the code: a non-empty result replaces the list, is
    recorded in the seen set, cut to the cap, rendered and counted; an
    empty result leaves the store, and renders and counts it only when it
    is not empty. *)
Lemma unified_cycle_eq o now st :
  Unified.cycle DateParse o now st =
  let loading := set_display false (set_display true (Unified.loadingIndicator st)) in
  let newNews := unified_fetched o in
  if (0 <? length newNews)%nat then
    let kept := take Unified.maxNewsCount newNews in
    {| Unified.newsList := kept;
       Unified.sentNewsLinks := record_links (Unified.sentNewsLinks st) newNews;
       Unified.newsContainer := NewsItems (imap (Unified.renderItem DateParse now) kept);
       Unified.loadingIndicator := loading;
       Unified.totalNews := Some (length kept);
       Unified.lastUpdate := Some now |}
  else if (length (Unified.newsList st) =? 0)%nat then
    {| Unified.newsList := Unified.newsList st;
       Unified.sentNewsLinks := Unified.sentNewsLinks st;
       Unified.newsContainer := NoNewsMessage;
       Unified.loadingIndicator := loading;
       Unified.totalNews := Unified.totalNews st;
       Unified.lastUpdate := Unified.lastUpdate st |}
  else
    {| Unified.newsList := Unified.newsList st;
       Unified.sentNewsLinks := Unified.sentNewsLinks st;
       Unified.newsContainer :=
         NewsItems (imap (Unified.renderItem DateParse now) (Unified.newsList st));
       Unified.loadingIndicator := loading;
       Unified.totalNews := Some (length (Unified.newsList st));
       Unified.lastUpdate := Some now |}.
Proof.
  unfold Unified.cycle, Unified.collectAndDisplayNews, try_catch_finally,
    Unified.update_and_render.
  unfold mbind at 1, M_bind at 1.
  cbn [Unified.showLoading modify snd].
  unfold mbind at 1, M_bind at 1, lift at 1.
  rewrite unified_fetched_eq. cbn zeta.
  set (newNews := unified_fetched o).
  destruct (0 <? length newNews)%nat eqn:Hne.
  - assert (Hpos : (length (take Unified.maxNewsCount newNews) =? 0)%nat = false).
    { apply Nat.ltb_lt in Hne. apply Nat.eqb_neq.
      rewrite length_take. unfold Unified.maxNewsCount. lia. }
    destruct (Nat.ltb_spec Unified.maxNewsCount (length newNews)) as [Hgt|Hle].
    + unfold_unified. rewrite Nat.ltb_antisym, (proj2 (Nat.leb_gt _ _) Hgt).
      cbn [negb]. unfold_unified. rewrite Hpos. reflexivity.
    + rewrite (take_ge newNews Unified.maxNewsCount) in * by exact Hle.
      unfold_unified. rewrite (proj2 (Nat.ltb_ge _ _) Hle).
      unfold_unified. rewrite Hpos. reflexivity.
  - unfold_unified.
    destruct (length (Unified.newsList st) =? 0)%nat eqn:Hst.
    + reflexivity.
    + unfold_unified. rewrite Hst. reflexivity.
Qed.

End UnifiedCycle.

(* ================================================================= *)
(** ** The store across cycles *)

Section Store.

Lemma unified_cycle_newsList DateParse o now st :
  Unified.newsList (Unified.cycle DateParse o now st) =
  if (0 <? length (unified_fetched o))%nat
  then take Unified.maxNewsCount (unified_fetched o)
  else Unified.newsList st.
Proof.
  rewrite unified_cycle_eq. cbn zeta.
  destruct (0 <? length (unified_fetched o))%nat; [reflexivity|].
  destruct (length (Unified.newsList st) =? 0)%nat; reflexivity.
Qed.

Lemma unified_cycle_cap DateParse o now st :
  length (Unified.newsList st) <= Unified.maxNewsCount ->
  length (Unified.newsList (Unified.cycle DateParse o now st))
    <= Unified.maxNewsCount.
Proof.
  intros H. rewrite unified_cycle_newsList.
  destruct (0 <? length (unified_fetched o))%nat; [|exact H].
  rewrite length_take. lia.
Qed.

Lemma container_for_shown items :
  length items <= Partitioned.maxNewsCount ->
  shown (container_for items) <= Partitioned.maxNewsCount.
Proof.
  unfold container_for. destruct (length items =? 0)%nat; cbn [shown]; lia.
Qed.

Lemma renderList_take_length tza now l ys :
  Partitioned.renderList tza now (take Partitioned.maxNewsCount l) = Normal ys ->
  length ys <= Partitioned.maxNewsCount.
Proof.
  intros H. apply renderList_length in H. rewrite H, length_take. lia.
Qed.

(** What a cycle of the partitioned variant leaves in its containers: at
    most five items each, whatever they showed before. *)
Lemma partitioned_cycle_shown tza o now st :
  shown (Partitioned.generalNewsContainer st) <= Partitioned.maxNewsCount ->
  shown (Partitioned.cryptoNewsContainer st) <= Partitioned.maxNewsCount ->
  shown (Partitioned.generalNewsContainer (Partitioned.cycle tza o now st))
    <= Partitioned.maxNewsCount ∧
  shown (Partitioned.cryptoNewsContainer (Partitioned.cycle tza o now st))
    <= Partitioned.maxNewsCount.
Proof.
  intros Hg Hc. rewrite partitioned_cycle_eq. cbn zeta.
  assert (Hrender : ∀ s,
    shown (Partitioned.generalNewsContainer s) <= Partitioned.maxNewsCount ->
    shown (Partitioned.cryptoNewsContainer s) <= Partitioned.maxNewsCount ->
    let s' := match Partitioned.displayNews tza now s with
              | (Normal _, s') => snd (Partitioned.showLoading false
                                         (snd (Partitioned.updateStats now s')))
              | (Throw _, s') => snd (Partitioned.showLoading false
                                        (snd (Partitioned.showErrorMessage s')))
              end in
    shown (Partitioned.generalNewsContainer s') <= Partitioned.maxNewsCount ∧
    shown (Partitioned.cryptoNewsContainer s') <= Partitioned.maxNewsCount).
  { intros s Hsg Hsc. rewrite displayNews_eq.
    destruct (Partitioned.renderList tza now (take _ (Partitioned.generalNewsList s)))
      as [g|e] eqn:Eg; [|solve_cap].
    destruct (Partitioned.renderList tza now (take _ (Partitioned.cryptoNewsList s)))
      as [c|e] eqn:Ec; [|solve_cap].
    unfold Partitioned.showLoading, Partitioned.updateStats, modify. cbn.
    split; apply container_for_shown; eapply renderList_take_length; eassumption. }
  destruct (Partitioned.fetchNewsFromCollector o) as [[data|]|e].
  - apply Hrender; assumption.
  - destruct (_ && _)%bool; [solve_cap|]. apply Hrender; assumption.
  - solve_cap.
Qed.

Lemma partitioned_cycle_payload_store tza c g now st :
  Partitioned.cryptoNewsList (Partitioned.cycle tza (partitioned_payload c g) now st) = c ∧
  Partitioned.generalNewsList (Partitioned.cycle tza (partitioned_payload c g) now st) = g.
Proof.
  rewrite partitioned_cycle_payload. cbn zeta. rewrite displayNews_eq.
  destruct (Partitioned.renderList tza now _) as [rg|e]; [|split; reflexivity].
  destruct (Partitioned.renderList tza now _) as [rc|e]; split; reflexivity.
Qed.

(** C1, as the code has it.  The unified store never holds more than 50
    items after a cycle, over every run of cycles from the constructor.
    The partitioned store keeps each list of the envelope as delivered,
    whatever its length; its cap of 5 is applied where a list is shown, and
    no container ever shows more than 5 items. *)
Theorem store_cap_amended :
  (Unified.maxNewsCount = 50 ∧ Partitioned.maxNewsCount = 5) ∧
  (∀ DateParse cs loading,
     length (Unified.newsList
               (unified_cycles DateParse cs (Unified.constructor loading)))
       <= Unified.maxNewsCount) ∧
  (∀ tza cs gl cl,
     let st := partitioned_cycles tza cs (Partitioned.constructor gl cl) in
     shown (Partitioned.generalNewsContainer st) <= Partitioned.maxNewsCount ∧
     shown (Partitioned.cryptoNewsContainer st) <= Partitioned.maxNewsCount) ∧
  (∀ tza c g now st,
     let st' := Partitioned.cycle tza (partitioned_payload c g) now st in
     Partitioned.cryptoNewsList st' = c ∧ Partitioned.generalNewsList st' = g).
Proof.
  split; [split; reflexivity|]. split; [|split].
  - intros DateParse cs loading. unfold unified_cycles.
    assert (H : length (Unified.newsList (Unified.constructor loading))
                <= Unified.maxNewsCount) by solve_cap.
    revert H. generalize (Unified.constructor loading).
    induction cs as [|[o now] cs IH]; intros st H; [exact H|].
    cbn [foldl fst snd]. apply IH. now apply unified_cycle_cap.
  - intros tza cs gl cl. unfold partitioned_cycles.
    assert (H : shown (Partitioned.generalNewsContainer (Partitioned.constructor gl cl))
                <= Partitioned.maxNewsCount ∧
                shown (Partitioned.cryptoNewsContainer (Partitioned.constructor gl cl))
                <= Partitioned.maxNewsCount) by solve_cap.
    revert H. generalize (Partitioned.constructor gl cl).
    induction cs as [|[o now] cs IH]; intros st H; [exact H|].
    cbn [foldl fst snd]. apply IH. destruct H.
    now apply partitioned_cycle_shown.
  - intros tza c g now st. apply partitioned_cycle_payload_store.
Qed.

(** C1 as stated fails: a cycle of the partitioned variant that receives
    six crypto items leaves six items in [cryptoNewsList]. *)
Lemma store_cap_counterexample :
  let st := Partitioned.cycle kst (partitioned_payload six_items []) 1761665457000
              (Partitioned.constructor None None) in
  length (Partitioned.cryptoNewsList st) = 6 ∧
  ¬ (length (Partitioned.cryptoNewsList st) <= Partitioned.maxNewsCount).
Proof.
  cbn zeta. split; [reflexivity|]. vm_compute. lia.
Qed.

(** C8, as the code has it.  A successful payload of at least one item
    replaces the stored list by its first 50 items in the order delivered:
    all of them when there are at most 50.  A successful payload of no
    items leaves the stored list as it was. *)
Theorem unified_update_roundtrip
  (DateParse : string -> JSNum) (l : list NewsItem) (now : Z)
  (st : Unified.State) (Hl : l ≠ []) :
  let st' := Unified.cycle DateParse (unified_payload l) now st in
  Unified.newsList st' = take Unified.maxNewsCount l ∧
  (length l <= Unified.maxNewsCount -> Unified.newsList st' = l) ∧
  (Unified.maxNewsCount < length l ->
   length (Unified.newsList st') = Unified.maxNewsCount) ∧
  Unified.newsList (Unified.cycle DateParse (unified_payload []) now st)
    = Unified.newsList st.
Proof.
  cbn zeta. rewrite !unified_cycle_newsList, !unified_fetched_payload.
  destruct l as [|x r]; [congruence|]. cbn [length Nat.ltb Nat.leb].
  repeat split.
  - intros H. now apply take_ge.
  - intros H. rewrite length_take. cbn [length]. lia.
Qed.

Lemma unified_update_roundtrip_witness :
  [sample_item "a" (PubNative (Num 0)); sample_item "b" (PubNative (Num 0))] ≠ [] ∧
  Unified.newsList
    (Unified.cycle parse_nothing
       (unified_payload [sample_item "a" (PubNative (Num 0));
                         sample_item "b" (PubNative (Num 0))])
       60000 (Unified.constructor None))
  = take Unified.maxNewsCount
      [sample_item "a" (PubNative (Num 0)); sample_item "b" (PubNative (Num 0))].
Proof.
  split; [discriminate|].
  exact (proj1 (unified_update_roundtrip parse_nothing
                  [sample_item "a" (PubNative (Num 0));
                   sample_item "b" (PubNative (Num 0))]
                  60000 (Unified.constructor None) ltac:(discriminate))).
Defined.

(** C8 as stated fails at k = 0: a successful payload of no items does not
    leave the stored list equal to the payload. *)
Lemma unified_update_roundtrip_counterexample :
  let st := Unified.cycle parse_nothing
              (unified_payload [sample_item "a" (PubNative (Num 0))]) 60000
              (Unified.constructor None) in
  let st' := Unified.cycle parse_nothing (unified_payload []) 90000 st in
  Unified.newsList st' = [sample_item "a" (PubNative (Num 0))] ∧
  Unified.newsList st' ≠ [].
Proof.
  cbn zeta. split; [reflexivity|]. vm_compute. discriminate.
Qed.

End Store.

(* ================================================================= *)
(** ** Cycles that bring no data, and the stats surface *)

Section NoData.

Lemma partitioned_cycle_no_data tza o now st :
  Partitioned.fetchNewsFromCollector o = Normal None ->
  Partitioned.cryptoNewsList (Partitioned.cycle tza o now st)
    = Partitioned.cryptoNewsList st ∧
  Partitioned.generalNewsList (Partitioned.cycle tza o now st)
    = Partitioned.generalNewsList st ∧
  Partitioned.sentNewsLinks (Partitioned.cycle tza o now st)
    = Partitioned.sentNewsLinks st.
Proof.
  intros H. rewrite partitioned_cycle_eq, H. cbn zeta.
  destruct (_ && _)%bool; [repeat split|].
  rewrite displayNews_eq.
  destruct (Partitioned.renderList tza now _) as [rg|e]; [|repeat split].
  destruct (Partitioned.renderList tza now _) as [rc|e]; repeat split.
Qed.

(** A cycle of the partitioned variant whose render step is reached and
    whose timestamps all render. *)
Lemma partitioned_cycle_rendered tza o now st g c :
  let st' := Partitioned.cycle tza o now st in
  (Partitioned.fetchNewsFromCollector o ≠ Normal None ∨
   Partitioned.cryptoNewsList st ≠ [] ∨ Partitioned.generalNewsList st ≠ []) ->
  Partitioned.renderList tza now
    (take Partitioned.maxNewsCount (Partitioned.generalNewsList st')) = Normal g ->
  Partitioned.renderList tza now
    (take Partitioned.maxNewsCount (Partitioned.cryptoNewsList st')) = Normal c ->
  Partitioned.generalNewsContainer st' = container_for g ∧
  Partitioned.cryptoNewsContainer st' = container_for c ∧
  partitioned_stats_recomputed now st'.
Proof.
  cbn zeta. rewrite partitioned_cycle_eq. cbn zeta.
  assert (Hrender : ∀ s,
    let s' := match Partitioned.displayNews tza now s with
              | (Normal _, s') => snd (Partitioned.showLoading false
                                         (snd (Partitioned.updateStats now s')))
              | (Throw _, s') => snd (Partitioned.showLoading false
                                        (snd (Partitioned.showErrorMessage s')))
              end in
    Partitioned.renderList tza now
      (take Partitioned.maxNewsCount (Partitioned.generalNewsList s')) = Normal g ->
    Partitioned.renderList tza now
      (take Partitioned.maxNewsCount (Partitioned.cryptoNewsList s')) = Normal c ->
    Partitioned.generalNewsContainer s' = container_for g ∧
    Partitioned.cryptoNewsContainer s' = container_for c ∧
    partitioned_stats_recomputed now s').
  { intros s. cbn zeta. rewrite displayNews_eq.
    destruct (Partitioned.renderList tza now
                (take _ (Partitioned.generalNewsList s))) as [rg|e] eqn:Eg.
    - destruct (Partitioned.renderList tza now
                  (take _ (Partitioned.cryptoNewsList s))) as [rc|e] eqn:Ec.
      + unfold_partitioned. rewrite Eg, Ec. intros [= <-] [= <-].
        repeat split.
      + unfold_partitioned. rewrite Ec. discriminate.
    - unfold_partitioned. rewrite Eg. discriminate. }
  intros Hreach.
  destruct (Partitioned.fetchNewsFromCollector o) as [[data|]|e] eqn:Ef.
  - apply Hrender.
  - destruct (length (Partitioned.cryptoNewsList (Partitioned.cycle_begin st)) =? 0)%nat eqn:E1,
      (length (Partitioned.generalNewsList (Partitioned.cycle_begin st)) =? 0)%nat eqn:E2;
      cbn [andb]; try apply Hrender.
    exfalso. apply Nat.eqb_eq in E1, E2.
    apply length_zero_iff_nil in E1, E2.
    unfold Partitioned.cycle_begin, Partitioned.showLoading, modify in E1, E2.
    cbn [Partitioned.cryptoNewsList Partitioned.generalNewsList
         Partitioned.set_loadingIndicators snd] in E1, E2.
    destruct Hreach as [?|[?|?]]; congruence.
  - destruct (partitioned_fetch_total o) as [v Hv]. congruence.
Qed.

(** C3, as the code has it.  When the fetcher returns its no-data value
    (the empty list in the unified variant, null in the partitioned one)
    the store is left exactly as it was, and a non-empty prior list is
    rendered again as it stands.  A response of [{success: false}], a
    rejected request and a status that is not 2xx are such cases in both
    variants, and so is an empty item list in the unified variant.  (In the
    partitioned variant a successful envelope with empty lists is not: the
    fetcher returns it, and it replaces the lists.) *)
Theorem no_data_leaves_store
  (DateParse : string -> JSNum) (tza now : Z) (ou op : FetchOutcome)
  (su : Unified.State) (sp : Partitioned.State)
  (Hu : Unified.fetchNewsFromCollector ou = Normal [])
  (Hp : Partitioned.fetchNewsFromCollector op = Normal None) :
  let su' := Unified.cycle DateParse ou now su in
  let sp' := Partitioned.cycle tza op now sp in
  (Unified.newsList su' = Unified.newsList su ∧
   Unified.sentNewsLinks su' = Unified.sentNewsLinks su ∧
   (Unified.newsList su ≠ [] ->
    Unified.newsContainer su'
      = NewsItems (imap (Unified.renderItem DateParse now) (Unified.newsList su)))) ∧
  (Partitioned.cryptoNewsList sp' = Partitioned.cryptoNewsList sp ∧
   Partitioned.generalNewsList sp' = Partitioned.generalNewsList sp ∧
   Partitioned.sentNewsLinks sp' = Partitioned.sentNewsLinks sp ∧
   (∀ g c,
      Partitioned.cryptoNewsList sp ≠ [] ∨ Partitioned.generalNewsList sp ≠ [] ->
      Partitioned.renderList tza now
        (take Partitioned.maxNewsCount (Partitioned.generalNewsList sp)) = Normal g ->
      Partitioned.renderList tza now
        (take Partitioned.maxNewsCount (Partitioned.cryptoNewsList sp)) = Normal c ->
      Partitioned.generalNewsContainer sp' = container_for g ∧
      Partitioned.cryptoNewsContainer sp' = container_for c)) ∧
  (Unified.fetchNewsFromCollector success_false = Normal [] ∧
   Partitioned.fetchNewsFromCollector success_false = Normal None) ∧
  (Unified.fetchNewsFromCollector Rejected = Normal [] ∧
   Partitioned.fetchNewsFromCollector Rejected = Normal None ∧
   (∀ code body,
      Unified.fetchNewsFromCollector
        (Resolved {| ok := false; status := code; json := body |}) = Normal [] ∧
      Partitioned.fetchNewsFromCollector
        (Resolved {| ok := false; status := code; json := body |}) = Normal None) ∧
   Unified.fetchNewsFromCollector (unified_payload []) = Normal []).
Proof.
  cbn zeta. split; [|split; [|split; [split; reflexivity|]]];
    [| |repeat split].
  - rewrite unified_cycle_eq. unfold unified_fetched. rewrite Hu. cbn zeta.
    cbn [length Nat.ltb Nat.leb].
    destruct (length (Unified.newsList su) =? 0)%nat eqn:E; repeat split.
    intros Hne. apply Nat.eqb_eq, length_zero_iff_nil in E. congruence.
  - destruct (partitioned_cycle_no_data tza op now sp Hp) as (Hc & Hg & Hs).
    split; [exact Hc|]. split; [exact Hg|]. split; [exact Hs|].
    intros g c Hne Rg Rc. rewrite <- Hg in Rg. rewrite <- Hc in Rc.
    destruct (partitioned_cycle_rendered tza op now sp g c) as (Cg & Cc & _);
      auto.
Qed.

Lemma no_data_leaves_store_witness :
  Unified.fetchNewsFromCollector success_false = Normal [] ∧
  Partitioned.fetchNewsFromCollector success_false = Normal None ∧
  Unified.newsList
    (Unified.cycle parse_nothing success_false 90000
       (Unified.cycle parse_nothing
          (unified_payload [sample_item "a" (PubNative (Num 0))]) 60000
          (Unified.constructor None)))
  = Unified.newsList
      (Unified.cycle parse_nothing
         (unified_payload [sample_item "a" (PubNative (Num 0))]) 60000
         (Unified.constructor None)).
Proof.
  split; [reflexivity|]. split; [reflexivity|].
  exact (proj1 (proj1 (no_data_leaves_store parse_nothing kst 90000
           success_false success_false
           (Unified.cycle parse_nothing
              (unified_payload [sample_item "a" (PubNative (Num 0))]) 60000
              (Unified.constructor None))
           (Partitioned.constructor None None) eq_refl eq_refl))).
Defined.

(** C3 as stated fails for an empty item list in the partitioned variant:
    a successful envelope with two empty lists empties a store that held an
    item. *)
Lemma no_data_counterexample :
  let item := sample_item "a" (PubString "2025-10-29 00:30:57") in
  let st := Partitioned.cycle kst (partitioned_payload [item] []) 1761665457000
              (Partitioned.constructor None None) in
  let st' := Partitioned.cycle kst (partitioned_payload [] []) 1761665487000 st in
  Partitioned.cryptoNewsList st = [item] ∧
  Partitioned.cryptoNewsList st' = [] ∧
  Partitioned.cryptoNewsList st' ≠ Partitioned.cryptoNewsList st.
Proof.
  cbn zeta. split; [reflexivity|]. split; [reflexivity|].
  vm_compute. discriminate.
Qed.

(** C6, as the code has it.  The stats surface is written by every cycle
    whose render step runs to its end.  In the unified variant that is
    every cycle that leaves the list non-empty, with new data or without; a
    cycle that leaves it empty shows the no-news message and leaves the
    stats as they were.  In the partitioned variant it is every cycle that
    received an envelope or found a prior list, provided every shown
    timestamp renders.  A first cycle that receives
    [{success: true, news: []}] shows the no-news message in both variants;
    the partitioned variant writes the count 0, the unified variant writes
    no count. *)
Theorem stats_recomputed_when_rendered :
  (∀ DateParse o now st,
     let st' := Unified.cycle DateParse o now st in
     (Unified.newsList st' ≠ [] -> unified_stats_recomputed now st') ∧
     (Unified.newsList st' = [] ->
      Unified.newsContainer st' = NoNewsMessage ∧
      Unified.totalNews st' = Unified.totalNews st ∧
      Unified.lastUpdate st' = Unified.lastUpdate st)) ∧
  (∀ tza o now st g c,
     let st' := Partitioned.cycle tza o now st in
     (Partitioned.fetchNewsFromCollector o ≠ Normal None ∨
      Partitioned.cryptoNewsList st ≠ [] ∨ Partitioned.generalNewsList st ≠ []) ->
     Partitioned.renderList tza now
       (take Partitioned.maxNewsCount (Partitioned.generalNewsList st')) = Normal g ->
     Partitioned.renderList tza now
       (take Partitioned.maxNewsCount (Partitioned.cryptoNewsList st')) = Normal c ->
     partitioned_stats_recomputed now st') ∧
  (∀ DateParse now loading,
     let st' := Unified.cycle DateParse (unified_payload []) now
                  (Unified.constructor loading) in
     Unified.newsContainer st' = NoNewsMessage ∧
     Unified.totalNews st' = None ∧ Unified.lastUpdate st' = None) ∧
  (∀ tza now gl cl,
     let st' := Partitioned.cycle tza (unified_payload []) now
                  (Partitioned.constructor gl cl) in
     Partitioned.generalNewsContainer st' = NoNewsMessage ∧
     Partitioned.cryptoNewsContainer st' = NoNewsMessage ∧
     Partitioned.totalNews st' = Some 0%nat ∧
     Partitioned.lastUpdate st' = Some now).
Proof.
  split; [|split; [|split]].
  - intros DateParse o now st. cbn zeta. rewrite unified_cycle_eq. cbn zeta.
    destruct (0 <? length (unified_fetched o))%nat eqn:E.
    + split; [intros _; split; reflexivity|].
      cbn [Unified.newsList]. intros H. exfalso.
      apply Nat.ltb_lt in E. apply (f_equal length) in H.
      rewrite length_take in H. unfold Unified.maxNewsCount in H.
      cbn [length] in H. lia.
    + destruct (length (Unified.newsList st) =? 0)%nat eqn:E'.
      * split; [|intros _; repeat split].
        cbn [Unified.newsList]. intros H.
        apply Nat.eqb_eq, length_zero_iff_nil in E'. congruence.
      * split; [intros _; split; reflexivity|].
        cbn [Unified.newsList]. intros H. rewrite H in E'. discriminate.
  - intros tza o now st g c st' Hreach Hg Hc.
    now apply (partitioned_cycle_rendered tza o now st g c).
  - intros DateParse now loading. repeat split.
  - intros tza now gl cl. repeat split.
Qed.

(** C6 as stated fails: the first cycle of the unified variant, on
    [{success: true, news: []}], shows the no-news message and writes no
    stats. *)
Lemma stats_counterexample :
  let st := Unified.cycle parse_nothing (unified_payload []) 60000
              (Unified.constructor None) in
  Unified.newsContainer st = NoNewsMessage ∧
  Unified.totalNews st = None ∧
  ¬ unified_stats_recomputed 60000 st.
Proof.
  cbn zeta. split; [reflexivity|]. split; [reflexivity|].
  intros [H _]. vm_compute in H. discriminate.
Qed.

(** The partitioned class calls [showNoNewsMessage] when there is no data
    and both lists are empty, and declares no such method: that cycle ends
    in the error message. *)
Lemma partitioned_no_data_on_empty_store tza o now gl cl :
  Partitioned.fetchNewsFromCollector o = Normal None ->
  let st' := Partitioned.cycle tza o now (Partitioned.constructor gl cl) in
  Partitioned.generalNewsContainer st' = ErrorMessage ∧
  Partitioned.cryptoNewsContainer st' = ErrorMessage ∧
  Partitioned.totalNews st' = None.
Proof.
  intros H. cbn zeta. rewrite partitioned_cycle_eq, H. repeat split.
Qed.

End NoData.

(* ================================================================= *)
(** ** The scheduler *)

Section SchedulerFacts.

Context {St : Type}.
Variable cycle_begin : St -> St.
Variable cycle_resume : FetchOutcome -> Z -> M St unit.

Abbreviation step := (Scheduler.step cycle_begin cycle_resume).
Abbreviation run := (Scheduler.run cycle_begin cycle_resume).
Abbreviation paced := (Scheduler.paced cycle_begin cycle_resume).
Abbreviation start := (Scheduler.startNewsCollection cycle_begin).

Lemma on_settle_outstanding id o now l :
  Scheduler.outstanding (Scheduler.on_settle cycle_resume id o now l)
  = filter (λ j, j ≠ id) (Scheduler.outstanding l).
Proof.
  unfold Scheduler.on_settle. destruct (cycle_resume o now _). reflexivity.
Qed.

Lemma on_settle_started id o now l :
  Scheduler.started (Scheduler.on_settle cycle_resume id o now l)
  = Scheduler.started l.
Proof.
  unfold Scheduler.on_settle. destruct (cycle_resume o now _). reflexivity.
Qed.

Lemma on_settle_timer id o now l :
  Scheduler.timer l = true ->
  Scheduler.timer (Scheduler.on_settle cycle_resume id o now l) = true.
Proof.
  unfold Scheduler.on_settle. intros H.
  destruct (cycle_resume o now _) as [[]?]; cbn; rewrite H; reflexivity.
Qed.

Lemma first_cycle_alone_step l e l' :
  first_cycle_alone l -> step l e = Some l' -> first_cycle_alone l'.
Proof.
  intros [Hs Hinv]. destruct e as [|id o now]; cbn [Scheduler.step].
  - destruct (Scheduler.timer l) eqn:Ht; [|discriminate].
    intros [= <-]. destruct Hinv as [[Hf _]|(_ & H0)]; [congruence|].
    split; [cbn; lia|]. right. cbn. split; [exact Ht|].
    rewrite elem_of_app, list_elem_of_singleton. intros [?|?]; [tauto|lia].
  - destruct (bool_decide _) eqn:Hid; [|discriminate].
    apply bool_decide_eq_true in Hid. intros [= <-].
    split; [now rewrite on_settle_started|].
    destruct Hinv as [[Hf Hout]|(Ht & H0)].
    + destruct Hout as [Hout|Hout]; rewrite Hout in Hid;
        [|now apply elem_of_nil in Hid].
      apply list_elem_of_singleton in Hid. subst id.
      assert (Hempty : Scheduler.outstanding
                (Scheduler.on_settle cycle_resume 0 o now l) = []).
      { rewrite on_settle_outstanding, Hout. reflexivity. }
      rewrite Hempty.
      destruct (Scheduler.timer (Scheduler.on_settle cycle_resume 0 o now l)).
      * right. split; [reflexivity|apply not_elem_of_nil].
      * left. split; [reflexivity|]. now right.
    + right. rewrite on_settle_outstanding.
      split; [now apply on_settle_timer|].
      intros Hin. apply list_elem_of_filter in Hin as [_ Hin]. tauto.
Qed.

Lemma first_cycle_alone_run tr :
  ∀ l l', first_cycle_alone l -> run l tr = Some l' -> first_cycle_alone l'.
Proof.
  induction tr as [|e r IH]; intros l l' Hinv; cbn [Scheduler.run].
  - now intros [= <-].
  - destruct (step l e) as [l1|] eqn:E; [|discriminate].
    apply IH. eapply first_cycle_alone_step; eassumption.
Qed.

Lemma first_cycle_alone_start st : first_cycle_alone (start st).
Proof. split; [cbn; lia|]. left. split; [reflexivity|]. left. reflexivity. Qed.

Lemma paced_run_serial tr :
  ∀ l l', length (Scheduler.outstanding l) <= 1 ->
          paced l tr -> run l tr = Some l' ->
          length (Scheduler.outstanding l') <= 1.
Proof.
  induction tr as [|e r IH]; intros l l' Hlen; cbn [Scheduler.run Scheduler.paced].
  - now intros _ [= <-].
  - intros [Htick Hrest].
    destruct (step l e) as [l1|] eqn:E; [|discriminate].
    apply IH; [|exact Hrest].
    destruct e as [|id o now]; cbn [Scheduler.step] in E.
    + destruct (Scheduler.timer l); [|discriminate].
      injection E as <-. cbn. rewrite (Htick eq_refl). cbn. lia.
    + destruct (bool_decide _); [|discriminate].
      injection E as <-. rewrite on_settle_outstanding.
      etransitivity; [apply length_filter|exact Hlen].
Qed.

End SchedulerFacts.

Section SchedulerStatements.

(** The two halves of a cycle make up [collectAndDisplayNews]. *)
Lemma unified_cycle_split DateParse o now st :
  Unified.collectAndDisplayNews DateParse o now st
  = Unified.cycle_resume DateParse o now (Unified.cycle_begin st).
Proof. reflexivity. Qed.

Lemma partitioned_cycle_split tza o now st :
  Partitioned.collectAndDisplayNews tza o now st
  = Partitioned.cycle_resume tza o now (Partitioned.cycle_begin st).
Proof. reflexivity. Qed.

Lemma first_cycle_alone_outstanding {St} (l : @Scheduler.Loop St) :
  first_cycle_alone l -> 0%nat ∈ Scheduler.outstanding l ->
  Scheduler.outstanding l = [0%nat] ∧ Scheduler.timer l = false.
Proof.
  intros [_ [[Hf [Hout|Hout]]|[Ht H0]]] Hin.
  - now split.
  - rewrite Hout in Hin. now apply elem_of_nil in Hin.
  - tauto.
Qed.

(** C4, as the code has it.  The period is 30000 ms in both variants.
    The first cycle runs alone: the timer is created only when it has
    ended, so no tick can start a cycle before.  After that every tick
    starts a cycle, whether or not an earlier one is still waiting for its
    fetch: nothing is skipped or coalesced.  So at most one cycle is
    outstanding on the traces where every fetch settles before the next
    tick, which is what the hypotheses say of [tr]. *)
Theorem cycles_serial_when_paced
  (DateParse : string -> JSNum) (tza : Z)
  (su : Unified.State) (sp : Partitioned.State) (tr : list Scheduler.Event)
  (Hu : Unified.paced DateParse (Unified.startNewsCollection su) tr)
  (Hp : Partitioned.paced tza (Partitioned.startNewsCollection sp) tr) :
  (Unified.updateInterval = 30000%Z ∧ Partitioned.updateInterval = 30000%Z) ∧
  (∀ l, Unified.run DateParse (Unified.startNewsCollection su) tr = Some l ->
        length (Scheduler.outstanding l) <= 1) ∧
  (∀ l, Partitioned.run tza (Partitioned.startNewsCollection sp) tr = Some l ->
        length (Scheduler.outstanding l) <= 1) ∧
  (∀ tr' l,
     Unified.run DateParse (Unified.startNewsCollection su) tr' = Some l ->
     0%nat ∈ Scheduler.outstanding l ->
     Scheduler.outstanding l = [0%nat] ∧
     Unified.step DateParse l Scheduler.Tick = None) ∧
  (∀ tr' l,
     Partitioned.run tza (Partitioned.startNewsCollection sp) tr' = Some l ->
     0%nat ∈ Scheduler.outstanding l ->
     Scheduler.outstanding l = [0%nat] ∧
     Partitioned.step tza l Scheduler.Tick = None) ∧
  (∀ l, Scheduler.timer l = true ->
        ∃ l', Unified.step DateParse l Scheduler.Tick = Some l' ∧
              Scheduler.outstanding l'
              = (Scheduler.outstanding l ++ [Scheduler.started l])%list) ∧
  (∀ l, Scheduler.timer l = true ->
        ∃ l', Partitioned.step tza l Scheduler.Tick = Some l' ∧
              Scheduler.outstanding l'
              = (Scheduler.outstanding l ++ [Scheduler.started l])%list).
Proof.
  split; [split; reflexivity|].
  split; [|split; [|split; [|split; [|split]]]].
  - intros l Hrun.
    eapply (paced_run_serial _ _ tr); [|exact Hu|exact Hrun]. cbn. lia.
  - intros l Hrun.
    eapply (paced_run_serial _ _ tr); [|exact Hp|exact Hrun]. cbn. lia.
  - intros tr' l Hrun Hin.
    destruct (first_cycle_alone_outstanding l) as [Hout Ht]; [|exact Hin|].
    + eapply first_cycle_alone_run; [apply first_cycle_alone_start|exact Hrun].
    + split; [exact Hout|]. unfold Unified.step. cbn. now rewrite Ht.
  - intros tr' l Hrun Hin.
    destruct (first_cycle_alone_outstanding l) as [Hout Ht]; [|exact Hin|].
    + eapply first_cycle_alone_run; [apply first_cycle_alone_start|exact Hrun].
    + split; [exact Hout|]. unfold Partitioned.step. cbn. now rewrite Ht.
  - intros l Ht. eexists. unfold Unified.step. cbn. rewrite Ht.
    split; reflexivity.
  - intros l Ht. eexists. unfold Partitioned.step. cbn. rewrite Ht.
    split; reflexivity.
Qed.

Lemma cycles_serial_when_paced_witness :
  let tr := [Scheduler.Settle 0 success_false 1000; Scheduler.Tick;
             Scheduler.Settle 1 success_false 31000; Scheduler.Tick] in
  Unified.paced parse_nothing
    (Unified.startNewsCollection (Unified.constructor None)) tr ∧
  Partitioned.paced kst
    (Partitioned.startNewsCollection (Partitioned.constructor None None)) tr ∧
  (∀ l, Unified.run parse_nothing
          (Unified.startNewsCollection (Unified.constructor None)) tr = Some l ->
        length (Scheduler.outstanding l) <= 1).
Proof.
  cbn zeta.
  assert (Hu : Unified.paced parse_nothing
                 (Unified.startNewsCollection (Unified.constructor None))
                 [Scheduler.Settle 0 success_false 1000; Scheduler.Tick;
                  Scheduler.Settle 1 success_false 31000; Scheduler.Tick]).
  { repeat split; try discriminate; reflexivity. }
  assert (Hp : Partitioned.paced kst
                 (Partitioned.startNewsCollection (Partitioned.constructor None None))
                 [Scheduler.Settle 0 success_false 1000; Scheduler.Tick;
                  Scheduler.Settle 1 success_false 31000; Scheduler.Tick]).
  { repeat split; try discriminate; reflexivity. }
  split; [exact Hu|]. split; [exact Hp|].
  exact (proj1 (proj2 (cycles_serial_when_paced parse_nothing kst
                         (Unified.constructor None)
                         (Partitioned.constructor None None) _ Hu Hp))).
Defined.

(** C4 as stated fails: a second tick that fires while the cycle of the
    first tick still waits for its fetch starts another cycle, and two
    cycles are outstanding. *)
Lemma overlap_counterexample :
  let r := Unified.run parse_nothing
             (Unified.startNewsCollection (Unified.constructor None))
             [Scheduler.Settle 0 success_false 1000; Scheduler.Tick;
              Scheduler.Tick] in
  option_map Scheduler.outstanding r = Some [1%nat; 2%nat] ∧
  ¬ (∀ l, r = Some l -> length (Scheduler.outstanding l) <= 1).
Proof.
  cbn zeta.
  assert (E : option_map Scheduler.outstanding
                (Unified.run parse_nothing
                   (Unified.startNewsCollection (Unified.constructor None))
                   [Scheduler.Settle 0 success_false 1000; Scheduler.Tick;
                    Scheduler.Tick]) = Some [1%nat; 2%nat]) by reflexivity.
  split; [exact E|]. intros H.
  destruct (Unified.run _ _ _) as [l|]; [|discriminate].
  specialize (H l eq_refl). cbn [option_map] in E. injection E as E.
  rewrite E in H. cbn in H. lia.
Qed.

End SchedulerStatements.

(* ================================================================= *)
(** ** Further properties of the unified store *)

Section UnifiedStore.

Variable DateParse : string -> JSNum.

Lemma record_links_union (l : list NewsItem) :
  ∀ seen : gset string,
    record_links seen l = seen ∪ list_to_set (link <$> l).
Proof.
  unfold record_links.
  induction l as [|n r IH]; intros seen; cbn [foldl fmap list_fmap list_to_set].
  - now rewrite union_empty_r_L.
  - rewrite IH, (union_comm_L {[link n]} seen), union_assoc_L. reflexivity.
Qed.

Lemma unified_cycle_sentNewsLinks o now st :
  Unified.sentNewsLinks (Unified.cycle DateParse o now st)
  = Unified.sentNewsLinks st ∪ list_to_set (link <$> unified_fetched o).
Proof.
  rewrite unified_cycle_eq. cbn zeta.
  destruct (unified_fetched o) as [|n r] eqn:E.
  - cbn [length Nat.ltb Nat.leb].
    destruct (length (Unified.newsList st) =? 0)%nat;
      cbn [Unified.sentNewsLinks fmap list_fmap list_to_set];
      now rewrite union_empty_r_L.
  - cbn [length Nat.ltb Nat.leb Unified.sentNewsLinks].
    apply record_links_union.
Qed.

(** The seen-link set only grows, and a cycle records the link of every
    item the fetcher returned, those beyond the cap of 50 included. *)
Theorem unified_seen_links_recorded o now st :
  Unified.sentNewsLinks st ⊆ Unified.sentNewsLinks (Unified.cycle DateParse o now st) ∧
  (∀ n, n ∈ unified_fetched o ->
        link n ∈ Unified.sentNewsLinks (Unified.cycle DateParse o now st)) ∧
  (∀ k, k ∈ Unified.sentNewsLinks (Unified.cycle DateParse o now st) ->
        k ∈ Unified.sentNewsLinks st ∨ ∃ n, n ∈ unified_fetched o ∧ link n = k).
Proof.
  rewrite unified_cycle_sentNewsLinks. split; [apply union_subseteq_l|]. split.
  - intros n Hn. apply elem_of_union_r, elem_of_list_to_set.
    apply list_elem_of_fmap. eauto.
  - intros k Hk. apply elem_of_union in Hk as [Hk|Hk]; [now left|right].
    apply elem_of_list_to_set, list_elem_of_fmap in Hk as (n & -> & Hn). eauto.
Qed.

(** Replacement, not accumulation: a second cycle with the same outcome
    leaves the list and the seen-link set as the first one left them. *)
Theorem unified_cycle_idempotent o now1 now2 st :
  let st1 := Unified.cycle DateParse o now1 st in
  let st2 := Unified.cycle DateParse o now2 st1 in
  Unified.newsList st2 = Unified.newsList st1 ∧
  Unified.sentNewsLinks st2 = Unified.sentNewsLinks st1.
Proof.
  cbn zeta. split.
  - rewrite !unified_cycle_newsList.
    destruct (0 <? length (unified_fetched o))%nat; reflexivity.
  - rewrite !unified_cycle_sentNewsLinks.
    now rewrite <- union_assoc_L, union_idemp_L.
Qed.

(** Once the list holds news, no later cycle empties it, whatever the
    fetch brings. *)
Theorem unified_list_never_emptied o now st
  (Hne : Unified.newsList st ≠ []) :
  Unified.newsList (Unified.cycle DateParse o now st) ≠ [].
Proof.
  rewrite unified_cycle_newsList.
  destruct (unified_fetched o) as [|n r]; [exact Hne|].
  cbn [length Nat.ltb Nat.leb]. unfold Unified.maxNewsCount. discriminate.
Qed.

Lemma unified_display_agrees_step o now st :
  (Unified.newsList st = [] ∧ Unified.totalNews st = None ∧
   Unified.lastUpdate st = None ∧
   (Unified.newsContainer st = InitialMarkup ∨
    Unified.newsContainer st = NoNewsMessage)) ∨
  (Unified.newsList st ≠ [] ∧
   ∃ t, Unified.newsContainer st
        = NewsItems (imap (Unified.renderItem DateParse t) (Unified.newsList st)) ∧
        Unified.totalNews st = Some (length (Unified.newsList st)) ∧
        Unified.lastUpdate st = Some t) ->
  let st' := Unified.cycle DateParse o now st in
  (Unified.newsList st' = [] ∧ Unified.totalNews st' = None ∧
   Unified.lastUpdate st' = None ∧
   (Unified.newsContainer st' = InitialMarkup ∨
    Unified.newsContainer st' = NoNewsMessage)) ∨
  (Unified.newsList st' ≠ [] ∧
   ∃ t, Unified.newsContainer st'
        = NewsItems (imap (Unified.renderItem DateParse t) (Unified.newsList st')) ∧
        Unified.totalNews st' = Some (length (Unified.newsList st')) ∧
        Unified.lastUpdate st' = Some t).
Proof.
  intros Hinv. cbn zeta. rewrite unified_cycle_eq. cbn zeta.
  destruct (unified_fetched o) as [|n r] eqn:E.
  - cbn [length Nat.ltb Nat.leb].
    destruct (length (Unified.newsList st) =? 0)%nat eqn:El.
    + apply Nat.eqb_eq, length_zero_iff_nil in El.
      destruct Hinv as [(_ & Ht & Hu & _)|[Hne _]]; [|congruence].
      left. cbn. auto.
    + right. cbn. split; [|eauto].
      intros H. rewrite H in El. discriminate.
  - cbn [length Nat.ltb Nat.leb]. right. cbn [Unified.newsList
      Unified.newsContainer Unified.totalNews Unified.lastUpdate].
    split; [unfold Unified.maxNewsCount; discriminate|eauto].
Qed.

(** After any run of cycles from the constructor the page agrees with the
    store: either the list is empty, no stats were ever written and the
    container holds the page's markup or the no-news message, or the list
    is not empty and the container shows exactly its items, rendered at the
    instant of the last update, with the count equal to its length.  The
    error message is never shown. *)
Theorem unified_display_agrees_with_store cs loading :
  let st := unified_cycles DateParse cs (Unified.constructor loading) in
  ((Unified.newsList st = [] ∧ Unified.totalNews st = None ∧
    Unified.lastUpdate st = None ∧
    (Unified.newsContainer st = InitialMarkup ∨
     Unified.newsContainer st = NoNewsMessage)) ∨
   (Unified.newsList st ≠ [] ∧
    ∃ t, Unified.newsContainer st
         = NewsItems (imap (Unified.renderItem DateParse t) (Unified.newsList st)) ∧
         Unified.totalNews st = Some (length (Unified.newsList st)) ∧
         Unified.lastUpdate st = Some t)) ∧
  Unified.newsContainer st ≠ ErrorMessage.
Proof.
  cbn zeta.
  assert (H : ∀ st,
    ((Unified.newsList st = [] ∧ Unified.totalNews st = None ∧
      Unified.lastUpdate st = None ∧
      (Unified.newsContainer st = InitialMarkup ∨
       Unified.newsContainer st = NoNewsMessage)) ∨
     (Unified.newsList st ≠ [] ∧
      ∃ t, Unified.newsContainer st
           = NewsItems (imap (Unified.renderItem DateParse t) (Unified.newsList st)) ∧
           Unified.totalNews st = Some (length (Unified.newsList st)) ∧
           Unified.lastUpdate st = Some t)) ->
    let st' := unified_cycles DateParse cs st in
    (Unified.newsList st' = [] ∧ Unified.totalNews st' = None ∧
      Unified.lastUpdate st' = None ∧
      (Unified.newsContainer st' = InitialMarkup ∨
       Unified.newsContainer st' = NoNewsMessage)) ∨
     (Unified.newsList st' ≠ [] ∧
      ∃ t, Unified.newsContainer st'
           = NewsItems (imap (Unified.renderItem DateParse t) (Unified.newsList st')) ∧
           Unified.totalNews st' = Some (length (Unified.newsList st')) ∧
           Unified.lastUpdate st' = Some t)).
  { unfold unified_cycles. induction cs as [|[o now] r IH]; intros st Hinv;
      [exact Hinv|].
    cbn [foldl fst snd]. apply IH. now apply unified_display_agrees_step. }
  specialize (H (Unified.constructor loading)).
  destruct H as [(Hl & Ht & Hu & Hc)|(Hne & t & Hc & Hs)].
  - left. cbn. auto.
  - split; [left; auto|]. destruct Hc as [Hc|Hc]; rewrite Hc; discriminate.
  - split; [right; eauto|]. rewrite Hc. discriminate.
Qed.

End UnifiedStore.

Lemma unified_list_never_emptied_witness :
  Unified.newsList
    (Unified.cycle parse_nothing (unified_payload six_items) 0
       (Unified.constructor None)) ≠ [] ∧
  Unified.newsList
    (Unified.cycle parse_nothing Rejected 30000
       (Unified.cycle parse_nothing (unified_payload six_items) 0
          (Unified.constructor None))) ≠ [].
Proof.
  assert (H : Unified.newsList
                (Unified.cycle parse_nothing (unified_payload six_items) 0
                   (Unified.constructor None)) ≠ [])
    by (vm_compute; discriminate).
  split; [exact H|].
  exact (unified_list_never_emptied parse_nothing Rejected 30000 _ H).
Defined.

(* ================================================================= *)
(** ** Every cycle ends: exceptions, the loading indicator, the timer *)

Section CycleEnds.

Lemma try_catch_finally_normal {St} (body : M St unit)
  (handler : JSError -> M St unit) (final : M St unit) (st : St) :
  (∀ e s, fst (handler e s) = Normal tt) ->
  (∀ s, fst (final s) = Normal tt) ->
  fst (try_catch_finally body handler final st) = Normal tt.
Proof.
  intros Hh Hf. unfold try_catch_finally.
  destruct (body st) as [[[]|e] s1]; [apply Hf|].
  specialize (Hh e s1). destruct (handler e s1) as [[[]|e'] s2];
    [apply Hf|discriminate].
Qed.

Lemma unified_resume_normal DateParse o now st :
  fst (Unified.cycle_resume DateParse o now st) = Normal tt.
Proof. apply try_catch_finally_normal; reflexivity. Qed.

Lemma partitioned_resume_normal tza o now st :
  fst (Partitioned.cycle_resume tza o now st) = Normal tt.
Proof. apply try_catch_finally_normal; reflexivity. Qed.

(** [collectAndDisplayNews] never throws to its caller, in either variant:
    whatever is raised inside a cycle (by the fetch, by a timestamp that
    does not render, by the call of the method the partitioned class lacks)
    is caught inside it. *)
Theorem collectAndDisplayNews_never_throws DateParse tza o now su sp :
  fst (Unified.collectAndDisplayNews DateParse o now su) = Normal tt ∧
  fst (Partitioned.collectAndDisplayNews tza o now sp) = Normal tt ∧
  (∃ o' sp', fst (Partitioned.update_and_render tza o' now sp') = Throw TypeError).
Proof.
  split; [apply try_catch_finally_normal; reflexivity|].
  split; [apply try_catch_finally_normal; reflexivity|].
  exists Rejected, (Partitioned.constructor None None). reflexivity.
Qed.

Lemma set_display_hide (el : option string) :
  set_display false (set_display true el) = (λ _, "none") <$> el.
Proof. destruct el; reflexivity. Qed.

Lemma partitioned_cycle_loading tza o now st :
  Partitioned.generalLoadingIndicator (Partitioned.cycle tza o now st)
  = (λ _, "none") <$> Partitioned.generalLoadingIndicator st ∧
  Partitioned.cryptoLoadingIndicator (Partitioned.cycle tza o now st)
  = (λ _, "none") <$> Partitioned.cryptoLoadingIndicator st.
Proof.
  rewrite partitioned_cycle_eq. cbn zeta.
  assert (Hrender : ∀ s,
    Partitioned.generalLoadingIndicator s
      = set_display true (Partitioned.generalLoadingIndicator st) ->
    Partitioned.cryptoLoadingIndicator s
      = set_display true (Partitioned.cryptoLoadingIndicator st) ->
    let s' := match Partitioned.displayNews tza now s with
              | (Normal _, s') => snd (Partitioned.showLoading false
                                         (snd (Partitioned.updateStats now s')))
              | (Throw _, s') => snd (Partitioned.showLoading false
                                        (snd (Partitioned.showErrorMessage s')))
              end in
    Partitioned.generalLoadingIndicator s'
      = (λ _, "none") <$> Partitioned.generalLoadingIndicator st ∧
    Partitioned.cryptoLoadingIndicator s'
      = (λ _, "none") <$> Partitioned.cryptoLoadingIndicator st).
  { intros s Hg Hc. cbn zeta. rewrite displayNews_eq.
    destruct (Partitioned.renderList tza now
                (take _ (Partitioned.generalNewsList s))) as [rg|e];
      [destruct (Partitioned.renderList tza now
                   (take _ (Partitioned.cryptoNewsList s))) as [rc|e]|];
      unfold_partitioned; rewrite Hg, Hc, !set_display_hide; split; reflexivity. }
  destruct (Partitioned.fetchNewsFromCollector o) as [[data|]|e].
  - apply Hrender; reflexivity.
  - destruct (_ && _)%bool; [|apply Hrender; reflexivity].
    unfold Partitioned.cycle_begin. unfold_partitioned.
    rewrite !set_display_hide. split; reflexivity.
  - unfold Partitioned.cycle_begin. unfold_partitioned.
    rewrite !set_display_hide. split; reflexivity.
Qed.

(** However a cycle ends, it ends with every loading indicator of the page
    hidden; an indicator the page lacks stays absent and stops nothing. *)
Theorem loading_hidden_after_cycle DateParse tza o now su sp :
  Unified.loadingIndicator (Unified.cycle DateParse o now su)
  = (λ _, "none") <$> Unified.loadingIndicator su ∧
  Partitioned.generalLoadingIndicator (Partitioned.cycle tza o now sp)
  = (λ _, "none") <$> Partitioned.generalLoadingIndicator sp ∧
  Partitioned.cryptoLoadingIndicator (Partitioned.cycle tza o now sp)
  = (λ _, "none") <$> Partitioned.cryptoLoadingIndicator sp.
Proof.
  split; [|apply partitioned_cycle_loading].
  rewrite unified_cycle_eq. cbn zeta.
  destruct (0 <? length (unified_fetched o))%nat;
    [|destruct (length (Unified.newsList su) =? 0)%nat];
    cbn [Unified.loadingIndicator]; apply set_display_hide.
Qed.

End CycleEnds.

Section SchedulerRuns.

Context {St : Type}.
Variable cycle_begin : St -> St.
Variable cycle_resume : FetchOutcome -> Z -> M St unit.
Hypothesis resume_normal : ∀ o now st, fst (cycle_resume o now st) = Normal tt.

Abbreviation step := (Scheduler.step cycle_begin cycle_resume).
Abbreviation run := (Scheduler.run cycle_begin cycle_resume).
Abbreviation start := (Scheduler.startNewsCollection cycle_begin).

Lemma on_settle_normal id o now l :
  Scheduler.on_settle cycle_resume id o now l =
  {| Scheduler.manager := snd (cycle_resume o now (Scheduler.manager l));
     Scheduler.outstanding := filter (λ j, j ≠ id) (Scheduler.outstanding l);
     Scheduler.started := Scheduler.started l;
     Scheduler.timer := Scheduler.timer l || (id =? 0)%nat |}.
Proof.
  unfold Scheduler.on_settle.
  pose proof (resume_normal o now (Scheduler.manager l)) as H.
  destruct (cycle_resume o now (Scheduler.manager l)) as [c s].
  cbn [fst] in H. subst c. reflexivity.
Qed.

Lemma step_settle id o now l :
  id ∈ Scheduler.outstanding l ->
  step l (Scheduler.Settle id o now)
  = Some {| Scheduler.manager := snd (cycle_resume o now (Scheduler.manager l));
            Scheduler.outstanding := filter (λ j, j ≠ id) (Scheduler.outstanding l);
            Scheduler.started := Scheduler.started l;
            Scheduler.timer := Scheduler.timer l || (id =? 0)%nat |}.
Proof.
  intros Hin. cbn [Scheduler.step].
  rewrite bool_decide_eq_true_2 by exact Hin. now rewrite on_settle_normal.
Qed.

Lemma step_tick l :
  Scheduler.timer l = true ->
  step l Scheduler.Tick = Some (Scheduler.on_tick cycle_begin l).
Proof. intros Ht. cbn [Scheduler.step]. now rewrite Ht. Qed.

Lemma timer_stays_on tr :
  ∀ l l', Scheduler.timer l = true -> run l tr = Some l' ->
          Scheduler.timer l' = true.
Proof.
  induction tr as [|e r IH]; intros l l' Ht; cbn [Scheduler.run].
  - now intros [= <-].
  - destruct (step l e) as [l1|] eqn:E; [|discriminate].
    apply IH. destruct e as [|id o now]; cbn [Scheduler.step] in E.
    + rewrite Ht in E. injection E as <-. exact Ht.
    + destruct (bool_decide _); [|discriminate]. injection E as <-.
      rewrite on_settle_normal. cbn. now rewrite Ht.
Qed.

Lemma run_ticks k :
  ∀ l, Scheduler.timer l = true ->
       ∃ l', run l (replicate k Scheduler.Tick) = Some l' ∧
             Scheduler.outstanding l'
             = (Scheduler.outstanding l ++ seq (Scheduler.started l) k)%list ∧
             Scheduler.started l' = (Scheduler.started l + k)%nat ∧
             Scheduler.timer l' = true.
Proof.
  induction k as [|k IH]; intros l Ht.
  - exists l. cbn. rewrite app_nil_r, Nat.add_0_r. auto.
  - cbn [replicate Scheduler.run Scheduler.step]. rewrite Ht.
    destruct (IH (Scheduler.on_tick cycle_begin l) Ht) as (l' & Hrun & Hout & Hs & Ht').
    exists l'. split; [exact Hrun|]. cbn in Hout, Hs.
    rewrite Hout, Hs, <- app_assoc. cbn. split; [reflexivity|]. split; [lia|exact Ht'].
Qed.

Lemma run_first_settle st o now :
  run (start st) [Scheduler.Settle 0 o now]
  = Some {| Scheduler.manager := snd (cycle_resume o now (cycle_begin st));
            Scheduler.outstanding := [];
            Scheduler.started := 1;
            Scheduler.timer := true |}.
Proof.
  cbn [Scheduler.run]. rewrite step_settle by (cbn; apply list_elem_of_here).
  reflexivity.
Qed.

End SchedulerRuns.

Section SchedulerFurther.

Variable DateParse : string -> JSNum.
Variable tza : Z.

(** No outcome of a cycle stops the timer: once the first cycle has
    settled, whatever it fetched, the timer exists, and after any further
    events it still exists and its next tick starts a cycle. *)
Theorem timer_survives_every_cycle su sp o now tr :
  (∀ l, Unified.run DateParse (Unified.startNewsCollection su)
          (Scheduler.Settle 0 o now :: tr) = Some l ->
        Scheduler.timer l = true ∧
        ∃ l', Unified.step DateParse l Scheduler.Tick = Some l') ∧
  (∀ l, Partitioned.run tza (Partitioned.startNewsCollection sp)
          (Scheduler.Settle 0 o now :: tr) = Some l ->
        Scheduler.timer l = true ∧
        ∃ l', Partitioned.step tza l Scheduler.Tick = Some l').
Proof.
  split; intros l Hrun.
  - unfold Unified.run, Unified.startNewsCollection in Hrun.
    change (Scheduler.Settle 0 o now :: tr)
      with ([Scheduler.Settle 0 o now] ++ tr)%list in Hrun.
    cbn [Scheduler.run app] in Hrun.
    rewrite (step_settle _ _ (unified_resume_normal DateParse)) in Hrun
      by (cbn; apply list_elem_of_here).
    apply (timer_stays_on _ _ (unified_resume_normal DateParse)) in Hrun;
      [|reflexivity].
    split; [exact Hrun|]. unfold Unified.step. cbn. rewrite Hrun. eauto.
  - unfold Partitioned.run, Partitioned.startNewsCollection in Hrun.
    cbn [Scheduler.run] in Hrun.
    rewrite (step_settle _ _ (partitioned_resume_normal tza)) in Hrun
      by (cbn; apply list_elem_of_here).
    apply (timer_stays_on _ _ (partitioned_resume_normal tza)) in Hrun;
      [|reflexivity].
    split; [exact Hrun|]. unfold Partitioned.step. cbn. rewrite Hrun. eauto.
Qed.

(** Nothing bounds the cycles in flight: when no fetch settles, [k] ticks
    after the first cycle leave [k] cycles outstanding, for every [k]. *)
Theorem outstanding_cycles_unbounded su sp o now k :
  (∃ l, Unified.run DateParse (Unified.startNewsCollection su)
          (Scheduler.Settle 0 o now :: replicate k Scheduler.Tick) = Some l ∧
        Scheduler.outstanding l = seq 1 k) ∧
  (∃ l, Partitioned.run tza (Partitioned.startNewsCollection sp)
          (Scheduler.Settle 0 o now :: replicate k Scheduler.Tick) = Some l ∧
        Scheduler.outstanding l = seq 1 k).
Proof.
  split.
  - unfold Unified.run, Unified.startNewsCollection. cbn [Scheduler.run].
    rewrite (step_settle _ _ (unified_resume_normal DateParse))
      by (cbn; apply list_elem_of_here).
    match goal with |- ∃ l, Scheduler.run _ _ ?l0 _ = _ ∧ _ =>
      destruct (run_ticks Unified.cycle_begin (Unified.cycle_resume DateParse)
                  k l0 eq_refl) as (l' & Hrun & Hout & _) end.
    exists l'. split; [exact Hrun|exact Hout].
  - unfold Partitioned.run, Partitioned.startNewsCollection. cbn [Scheduler.run].
    rewrite (step_settle _ _ (partitioned_resume_normal tza))
      by (cbn; apply list_elem_of_here).
    match goal with |- ∃ l, Scheduler.run _ _ ?l0 _ = _ ∧ _ =>
      destruct (run_ticks Partitioned.cycle_begin (Partitioned.cycle_resume tza)
                  k l0 eq_refl) as (l' & Hrun & Hout & _) end.
    exists l'. split; [exact Hrun|exact Hout].
Qed.

Lemma unified_resume_newsList o now st :
  Unified.newsList (snd (Unified.cycle_resume DateParse o now st)) =
  if (0 <? length (unified_fetched o))%nat
  then take Unified.maxNewsCount (unified_fetched o)
  else Unified.newsList st.
Proof.
  unfold Unified.cycle_resume, try_catch_finally, Unified.update_and_render.
  unfold mbind at 1, M_bind at 1, lift at 1.
  rewrite unified_fetched_eq. cbn zeta.
  set (newNews := unified_fetched o).
  destruct (0 <? length newNews)%nat eqn:Hne.
  - assert (Hpos : (length (take Unified.maxNewsCount newNews) =? 0)%nat = false).
    { apply Nat.ltb_lt in Hne. apply Nat.eqb_neq.
      rewrite length_take. unfold Unified.maxNewsCount. lia. }
    destruct (Nat.ltb_spec Unified.maxNewsCount (length newNews)) as [Hgt|Hle].
    + unfold_unified. rewrite Nat.ltb_antisym, (proj2 (Nat.leb_gt _ _) Hgt).
      cbn [negb]. unfold_unified. rewrite Hpos. reflexivity.
    + rewrite (take_ge newNews Unified.maxNewsCount) in * by exact Hle.
      unfold_unified. rewrite (proj2 (Nat.ltb_ge _ _) Hle).
      unfold_unified. rewrite Hpos. reflexivity.
  - unfold_unified.
    destruct (length (Unified.newsList st) =? 0)%nat eqn:Hst.
    + reflexivity.
    + unfold_unified. rewrite Hst. reflexivity.
Qed.

(** The store follows the fetch that settles last, not the one that was
    started last: when two cycles overlap and the older request is answered
    after the newer one, the list ends as the older answer. *)
Theorem stale_response_overwrites su o0 n0 (l1 l2 : list NewsItem) n1 n2
  (Hne : l1 ≠ []) :
  ∃ l, Unified.run DateParse (Unified.startNewsCollection su)
         [Scheduler.Settle 0 o0 n0; Scheduler.Tick; Scheduler.Tick;
          Scheduler.Settle 2 (unified_payload l2) n2;
          Scheduler.Settle 1 (unified_payload l1) n1] = Some l ∧
       Scheduler.outstanding l = [] ∧
       Unified.newsList (Scheduler.manager l) = take Unified.maxNewsCount l1.
Proof.
  unfold Unified.run, Unified.startNewsCollection. cbn [Scheduler.run].
  rewrite (step_settle _ _ (unified_resume_normal DateParse))
    by (cbn; apply list_elem_of_here).
  cbv beta iota. rewrite step_tick by reflexivity.
  cbv beta iota. rewrite step_tick by reflexivity.
  cbv beta iota.
  rewrite (step_settle _ _ (unified_resume_normal DateParse))
    by (cbn; apply list_elem_of_further, list_elem_of_here).
  cbv beta iota.
  rewrite (step_settle _ _ (unified_resume_normal DateParse))
    by (cbn; apply list_elem_of_here).
  eexists. split; [reflexivity|]. split; [reflexivity|].
  cbn [Scheduler.manager]. rewrite unified_resume_newsList, unified_fetched_payload.
  destruct l1 as [|x r]; [congruence|reflexivity].
Qed.

End SchedulerFurther.

Lemma stale_response_overwrites_witness :
  [sample_item "old" (PubNative (Num 0))] ≠ [] ∧
  ∃ l, Unified.run parse_nothing
         (Unified.startNewsCollection (Unified.constructor None))
         [Scheduler.Settle 0 Rejected 0; Scheduler.Tick; Scheduler.Tick;
          Scheduler.Settle 2 (unified_payload [sample_item "new" (PubNative (Num 0))]) 70000;
          Scheduler.Settle 1 (unified_payload [sample_item "old" (PubNative (Num 0))]) 80000]
       = Some l ∧
       Scheduler.outstanding l = [] ∧
       Unified.newsList (Scheduler.manager l)
       = take Unified.maxNewsCount [sample_item "old" (PubNative (Num 0))].
Proof.
  split; [discriminate|].
  exact (stale_response_overwrites parse_nothing (Unified.constructor None)
           Rejected 0 [sample_item "old" (PubNative (Num 0))]
           [sample_item "new" (PubNative (Num 0))] 80000 70000
           ltac:(discriminate)).
Defined.

(* ================================================================= *)
(** ** Further properties of the relative-time labels *)

Section TimeAgoFurther.

Local Open Scope Z_scope.

Lemma split_nonempty (sep : ascii) (s : string) :
  ∃ h t, split sep s = h :: t.
Proof.
  induction s as [|c r (h & t & IH)]; cbn [split]; [eauto|].
  destruct (Ascii.eqb c sep); [eauto|]. rewrite IH. eauto.
Qed.

Lemma split_has_sep (sep : ascii) (s : string) :
  has_char sep s = true -> ∃ a b rest, split sep s = a :: b :: rest.
Proof.
  induction s as [|c r IH]; cbn [has_char split]; [discriminate|].
  destruct (Ascii.eqb c sep) eqn:E; cbn [orb].
  - intros _. destruct (split_nonempty sep r) as (h & t & ->). eauto.
  - intros H. destruct (IH H) as (a & b & rest & ->). eauto.
Qed.

Lemma partitioned_getTimeAgo_of_newsTime tza now p t :
  Partitioned.newsTime_of tza p = Normal t ->
  ∃ label, Partitioned.getTimeAgo tza now p = Normal label.
Proof.
  intros H. unfold Partitioned.getTimeAgo. rewrite H.
  cbn [mbind Completion_bind].
  repeat match goal with
         | |- context [if ?b then _ else _] => destruct b
         end; eauto.
Qed.

(** In the partitioned variant [getTimeAgo] throws on a string exactly when
    the string has no space; a string with a space always gets a label,
    whatever its fields, and so does every value that is not a string. *)
Theorem partitioned_getTimeAgo_throws_iff tza now s :
  ((∃ e, Partitioned.getTimeAgo tza now (PubString s) = Throw e)
   ↔ has_char " " s = false) ∧
  ((∃ label, Partitioned.getTimeAgo tza now (PubString s) = Normal label)
   ↔ has_char " " s = true) ∧
  (∀ t, ∃ label, Partitioned.getTimeAgo tza now (PubNative t) = Normal label).
Proof.
  assert (Hspace : has_char " " s = true ->
            ∃ label, Partitioned.getTimeAgo tza now (PubString s) = Normal label).
  { intros H. destruct (split_has_sep _ _ H) as (a & b & rest & Hs).
    eapply partitioned_getTimeAgo_of_newsTime.
    unfold Partitioned.newsTime_of. rewrite Hs. reflexivity. }
  split; [|split].
  - split.
    + intros [e He]. destruct (has_char " " s) eqn:H; [|reflexivity].
      destruct (Hspace eq_refl) as [label Hl]. congruence.
    + intros H. exists TypeError. now apply partitioned_getTimeAgo_no_space.
  - split; [|exact Hspace].
    intros [label Hl]. destruct (has_char " " s) eqn:H; [reflexivity|].
    rewrite (partitioned_getTimeAgo_no_space tza now s H) in Hl. discriminate.
  - intros t. now apply (partitioned_getTimeAgo_of_newsTime tza now _ t).
Qed.

(** Only the first two parts of the split are read: whatever follows a
    second space changes neither the parsed instant nor the label. *)
Theorem partitioned_trailing_text_ignored tza now (date time rest : string)
  (Hd : has_char " " date = false) (Ht : has_char " " time = false) :
  Partitioned.newsTime_of tza (PubString (date +:+ " " +:+ time +:+ " " +:+ rest))
  = Partitioned.newsTime_of tza (PubString (date +:+ " " +:+ time)) ∧
  Partitioned.getTimeAgo tza now (PubString (date +:+ " " +:+ time +:+ " " +:+ rest))
  = Partitioned.getTimeAgo tza now (PubString (date +:+ " " +:+ time)).
Proof.
  assert (H : Partitioned.newsTime_of tza
                (PubString (date +:+ " " +:+ time +:+ " " +:+ rest))
              = Partitioned.newsTime_of tza (PubString (date +:+ " " +:+ time))).
  { unfold Partitioned.newsTime_of.
    change (date +:+ " " +:+ time +:+ " " +:+ rest)
      with (date +:+ String " " (time +:+ String " " rest)).
    change (date +:+ " " +:+ time) with (date +:+ String " " time).
    rewrite !split_app by assumption.
    rewrite (split_no_sep " " time Ht).
    destruct (split_nonempty " " rest) as (h & t & ->). reflexivity. }
  split; [exact H|]. unfold Partitioned.getTimeAgo. now rewrite H.
Qed.

Lemma partitioned_trailing_text_ignored_witness :
  has_char " " "2025-10-29" = false ∧ has_char " " "00:30:57" = false ∧
  Partitioned.getTimeAgo kst 1761665517000 (PubString "2025-10-29 00:30:57 KST")
  = Partitioned.getTimeAgo kst 1761665517000 (PubString "2025-10-29 00:30:57").
Proof.
  split; [reflexivity|]. split; [reflexivity|].
  exact (proj2 (partitioned_trailing_text_ignored kst 1761665517000
                  "2025-10-29" "00:30:57" "KST" eq_refl eq_refl)).
Defined.

(** A published value that denotes no instant is not rejected: both
    variants return the days label with the count NaN. *)
Theorem getTimeAgo_of_invalid_date
  (DateParse : string -> JSNum) (tza now : Z) (pu pp : Published)
  (Hu : Unified.newsTime_of DateParse pu = NaN)
  (Hp : Partitioned.newsTime_of tza pp = Normal NaN) :
  Unified.getTimeAgo DateParse now pu = "NaN일 전" ∧
  Partitioned.getTimeAgo tza now pp = Normal "NaN일 전".
Proof.
  unfold Unified.getTimeAgo, Partitioned.getTimeAgo. rewrite Hu, Hp.
  split; reflexivity.
Qed.

Lemma getTimeAgo_of_invalid_date_witness :
  Unified.newsTime_of parse_nothing (PubString "2025-10-29 00:30:57") = NaN ∧
  Partitioned.newsTime_of kst (PubNative NaN) = Normal NaN ∧
  Unified.getTimeAgo parse_nothing 0 (PubString "2025-10-29 00:30:57") = "NaN일 전" ∧
  Partitioned.getTimeAgo kst 0 (PubNative NaN) = Normal "NaN일 전".
Proof.
  split; [reflexivity|]. split; [reflexivity|].
  exact (getTimeAgo_of_invalid_date parse_nothing kst 0
           (PubString "2025-10-29 00:30:57") (PubNative NaN) eq_refl eq_refl).
Defined.

Lemma nth_number_missing (l : list JSNum) (i : nat) :
  (length l <= i)%nat -> nth_number l i = NaN.
Proof.
  intros H. unfold nth_number. now rewrite (lookup_ge_None_2 l i H).
Qed.

Lemma Date_of_fields_no_day tza y m h mi s :
  Date_of_fields tza y m NaN h mi s = NaN.
Proof. destruct y, m; reflexivity. Qed.

Lemma Date_of_fields_no_second tza y m d h mi :
  Date_of_fields tza y m d h mi NaN = NaN.
Proof. destruct y, m, d, h, mi; reflexivity. Qed.

(** A string with a space whose date part has fewer than three fields, or
    whose time part has fewer than three, is not rejected either: the
    missing field is undefined, the Date is invalid, and the label is the
    days label with the count NaN. *)
Theorem partitioned_missing_field_label tza now (s d t : string) (rest : list string)
  (Hs : split " " s = d :: t :: rest)
  (Hshort : (length (split "-" d) < 3 ∨ length (split ":" t) < 3)%nat) :
  Partitioned.getTimeAgo tza now (PubString s) = Normal "NaN일 전".
Proof.
  assert (Hn : Partitioned.newsTime_of tza (PubString s) = Normal NaN).
  { unfold Partitioned.newsTime_of. rewrite Hs.
    cbn [nth_part lookup list_lookup Partitioned.numbers_of mbind Completion_bind].
    f_equal. destruct Hshort as [H|H].
    - rewrite (nth_number_missing (map Number (split "-" d)) 2)
        by (rewrite length_map; lia).
      apply Date_of_fields_no_day.
    - rewrite (nth_number_missing (map Number (split ":" t)) 2)
        by (rewrite length_map; lia).
      apply Date_of_fields_no_second. }
  unfold Partitioned.getTimeAgo. rewrite Hn. reflexivity.
Qed.

Lemma partitioned_missing_field_label_witness :
  split " " "2025-10 00:30:57" = ["2025-10"; "00:30:57"] ∧
  (length (split "-" "2025-10") < 3 ∨ length (split ":" "00:30:57") < 3)%nat ∧
  Partitioned.getTimeAgo kst 0 (PubString "2025-10 00:30:57") = Normal "NaN일 전".
Proof.
  split; [reflexivity|]. split; [left; cbn; lia|].
  exact (partitioned_missing_field_label kst 0 "2025-10 00:30:57"
           "2025-10" "00:30:57" [] eq_refl ltac:(left; cbn; lia)).
Defined.

(** The count a label carries is in the range of its unit: 1 to 59
    minutes, 1 to 23 hours, at least 1 day; "just now" covers everything
    under a minute, the future included. *)
Theorem label_counts_in_range
  (DateParse : string -> JSNum) (tza now t : Z) (pu pp : Published)
  (Hu : Unified.newsTime_of DateParse pu = Num t)
  (Hp : Partitioned.newsTime_of tza pp = Normal (Num t)) :
  ∃ l, Unified.getTimeAgo DateParse now pu = label_text l ∧
       Partitioned.getTimeAgo tza now pp = Normal (label_text l) ∧
       match l with
       | JustNow => now - t < 60000
       | MinutesAgo n => 1 <= n <= 59 ∧ 60000 * n <= now - t < 60000 * (n + 1)
       | HoursAgo n => 1 <= n <= 23 ∧ 3600000 * n <= now - t < 3600000 * (n + 1)
       | DaysAgo n => 1 <= n ∧ 86400000 * n <= now - t < 86400000 * (n + 1)
       end.
Proof.
  exists (relativeLabel (now - t)).
  split; [now apply unified_getTimeAgo_elapsed|].
  split; [now apply partitioned_getTimeAgo_elapsed|].
  unfold relativeLabel.
  repeat match goal with
         | |- context [?a <? ?b] => destruct (Z.ltb_spec a b)
         end; [lia| | |];
    Z.div_mod_to_equations; lia.
Qed.

Lemma label_counts_in_range_witness :
  Unified.newsTime_of parse_nothing (PubNative (Num 0)) = Num 0 ∧
  Partitioned.newsTime_of kst (PubNative (Num 0)) = Normal (Num 0) ∧
  ∃ l, Unified.getTimeAgo parse_nothing 7200000 (PubNative (Num 0)) = label_text l ∧
       Partitioned.getTimeAgo kst 7200000 (PubNative (Num 0)) = Normal (label_text l) ∧
       match l with
       | JustNow => 7200000 - 0 < 60000
       | MinutesAgo n => 1 <= n <= 59 ∧ 60000 * n <= 7200000 - 0 < 60000 * (n + 1)
       | HoursAgo n => 1 <= n <= 23 ∧ 3600000 * n <= 7200000 - 0 < 3600000 * (n + 1)
       | DaysAgo n => 1 <= n ∧ 86400000 * n <= 7200000 - 0 < 86400000 * (n + 1)
       end.
Proof.
  split; [reflexivity|]. split; [reflexivity|].
  exact (label_counts_in_range parse_nothing kst 7200000 0
           (PubNative (Num 0)) (PubNative (Num 0)) eq_refl eq_refl).
Defined.

End TimeAgoFurther.

(* ================================================================= *)
(** ** Further properties of the rendering and of the envelope *)

Section RenderFurther.

Lemma map_indexed_items tza now l :
  ∀ i rs, map_indexed (Partitioned.renderItem tza now) i l = Normal rs ->
          Partitioned.r_link <$> rs = link <$> l ∧
          ∀ j r, rs !! j = Some r ->
                 Partitioned.r_new r = (i + j <? 2)%nat.
Proof.
  induction l as [|n rest IH]; intros i rs; cbn [map_indexed].
  - intros [= <-]. split; [reflexivity|]. intros j r H. discriminate.
  - unfold Partitioned.renderItem at 1.
    destruct (Partitioned.getTimeAgo tza now (published n)) as [label|e];
      cbn [mbind Completion_bind]; [|discriminate].
    destruct (map_indexed _ (S i) rest) as [rs'|e] eqn:E; [|discriminate].
    intros [= <-]. destruct (IH _ _ E) as [Hl Hn].
    split; [cbn; now rewrite Hl|].
    intros [|j] r; cbn.
    + intros [= <-]. cbn. now rewrite Nat.add_0_r.
    + intros H. rewrite (Hn j r H). now rewrite Nat.add_succ_r.
Qed.

Lemma unified_imap_links DateParse now (l : list NewsItem) :
  Unified.r_link <$> imap (Unified.renderItem DateParse now) l = link <$> l.
Proof.
  apply list_eq. intros i.
  rewrite !list_lookup_fmap, list_lookup_imap.
  destruct (l !! i); reflexivity.
Qed.

(** The containers follow the store item by item.  In the unified variant
    a cycle that leaves a non-empty list shows one entry per stored item, in
    the stored order, each with its own link, the first three flagged new.
    In the partitioned variant a list that renders gives one entry per
    item of the slice, in order, each with its own link, the first two
    flagged new. *)
Theorem rendered_items_follow_store DateParse tza :
  (∀ o now st,
     let st' := Unified.cycle DateParse o now st in
     Unified.newsList st' ≠ [] ->
     ∃ rs, Unified.newsContainer st' = NewsItems rs ∧
           length rs = length (Unified.newsList st') ∧
           Unified.r_link <$> rs = link <$> Unified.newsList st' ∧
           ∀ j r, rs !! j = Some r -> Unified.r_new r = (j <? 3)%nat) ∧
  (∀ now l rs,
     Partitioned.renderList tza now l = Normal rs ->
     length rs = length l ∧
     Partitioned.r_link <$> rs = link <$> l ∧
     ∀ j r, rs !! j = Some r -> Partitioned.r_new r = (j <? 2)%nat).
Proof.
  split.
  - intros o now st st' Hne.
    assert (Hc : Unified.newsContainer st'
                 = NewsItems (imap (Unified.renderItem DateParse now)
                                (Unified.newsList st'))).
    { subst st'. revert Hne. rewrite unified_cycle_eq. cbn zeta.
      destruct (0 <? length (unified_fetched o))%nat; [reflexivity|].
      destruct (length (Unified.newsList st) =? 0)%nat eqn:E; [|reflexivity].
      cbn [Unified.newsList]. intros Hne.
      apply Nat.eqb_eq, length_zero_iff_nil in E. congruence. }
    eexists. split; [exact Hc|]. split; [apply length_imap|].
    split; [apply unified_imap_links|].
    intros j r. rewrite list_lookup_imap.
    destruct (Unified.newsList st' !! j); cbn; [|discriminate].
    now intros [= <-].
  - intros now l rs H. split; [now apply (renderList_length tza now)|].
    apply map_indexed_items in H. exact H.
Qed.

Lemma shown_container_for rs : shown (container_for rs) = length rs.
Proof.
  unfold container_for. destruct rs; reflexivity.
Qed.

(** In the partitioned variant the count in the stats is the number of
    items stored, not the number shown: after an envelope whose shown
    timestamps render, each container shows at most five items of its
    list while the count is the sum of the full lengths. *)
Theorem partitioned_count_is_stored_not_shown tza (c g : list NewsItem) now st rg rc
  (Hg : Partitioned.renderList tza now (take Partitioned.maxNewsCount g) = Normal rg)
  (Hc : Partitioned.renderList tza now (take Partitioned.maxNewsCount c) = Normal rc) :
  let st' := Partitioned.cycle tza (partitioned_payload c g) now st in
  shown (Partitioned.generalNewsContainer st') = (length g `min` 5)%nat ∧
  shown (Partitioned.cryptoNewsContainer st') = (length c `min` 5)%nat ∧
  Partitioned.totalNews st' = Some (length c + length g)%nat ∧
  (shown (Partitioned.generalNewsContainer st')
   + shown (Partitioned.cryptoNewsContainer st') <= length c + length g)%nat.
Proof.
  cbn zeta.
  destruct (partitioned_cycle_payload_store tza c g now st) as [Sc Sg].
  destruct (partitioned_cycle_rendered tza (partitioned_payload c g) now st rg rc)
    as (Cg & Cc & Ht & _).
  - left. discriminate.
  - now rewrite Sg.
  - now rewrite Sc.
  - rewrite Cg, Cc, !shown_container_for, Ht, Sc, Sg.
    apply renderList_length in Hg, Hc. rewrite Hg, Hc, !length_take.
    unfold Partitioned.maxNewsCount. repeat split; lia.
Qed.

Lemma partitioned_count_is_stored_not_shown_witness :
  let st' := Partitioned.cycle kst (partitioned_payload six_items []) 1761665517000
               (Partitioned.constructor None None) in
  (∃ rg, Partitioned.renderList kst 1761665517000
           (take Partitioned.maxNewsCount []) = Normal rg) ∧
  (∃ rc, Partitioned.renderList kst 1761665517000
           (take Partitioned.maxNewsCount six_items) = Normal rc) ∧
  shown (Partitioned.cryptoNewsContainer st') = (length six_items `min` 5)%nat ∧
  Partitioned.totalNews st' = Some (length six_items + 0)%nat.
Proof.
  cbn zeta. split; [eexists; reflexivity|]. split; [eexists; reflexivity|].
  pose proof (partitioned_count_is_stored_not_shown kst six_items []
                1761665517000 (Partitioned.constructor None None) _ _
                eq_refl eq_refl) as H.
  exact (conj (proj1 (proj2 H)) (proj1 (proj2 (proj2 H)))).
Defined.

(** What a key missing from the envelope does.  In the partitioned variant
    a successful envelope replaces both lists, and a category whose key is
    absent becomes empty; so an envelope in the unified shape empties the
    store.  In the unified variant an envelope without the [news] key is no
    data, whatever its flag; so an envelope in the partitioned shape leaves
    the store as it was. *)
Theorem envelope_missing_keys DateParse tza :
  (∀ n c g now st,
     let st' := Partitioned.cycle tza
                  (response_of {| success := true; news := n;
                                  crypto_news := c; general_news := g |}) now st in
     Partitioned.cryptoNewsList st' = default [] c ∧
     Partitioned.generalNewsList st' = default [] g) ∧
  (∀ l now st,
     let st' := Partitioned.cycle tza (unified_payload l) now st in
     Partitioned.cryptoNewsList st' = [] ∧ Partitioned.generalNewsList st' = []) ∧
  (∀ flag c g now st,
     let st' := Unified.cycle DateParse
                  (response_of {| success := flag; news := None;
                                  crypto_news := c; general_news := g |}) now st in
     Unified.newsList st' = Unified.newsList st ∧
     Unified.sentNewsLinks st' = Unified.sentNewsLinks st) ∧
  (∀ c g now st,
     Unified.newsList (Unified.cycle DateParse (partitioned_payload c g) now st)
     = Unified.newsList st).
Proof.
  assert (Hp : ∀ n c g now st,
    let st' := Partitioned.cycle tza
                 (response_of {| success := true; news := n;
                                 crypto_news := c; general_news := g |}) now st in
    Partitioned.cryptoNewsList st' = default [] c ∧
    Partitioned.generalNewsList st' = default [] g).
  { intros n c g now st. cbn zeta. rewrite partitioned_cycle_eq.
    cbn [Partitioned.fetchNewsFromCollector response_of await_fetch catch
         mbind Completion_bind ok json negb get_success success]. cbn zeta.
    cbn [crypto_news general_news]. rewrite displayNews_eq.
    destruct (Partitioned.renderList tza now _) as [rg|e]; [|split; reflexivity].
    destruct (Partitioned.renderList tza now _) as [rc|e]; split; reflexivity. }
  assert (Hu : ∀ flag c g now st,
    let st' := Unified.cycle DateParse
                 (response_of {| success := flag; news := None;
                                 crypto_news := c; general_news := g |}) now st in
    Unified.newsList st' = Unified.newsList st ∧
    Unified.sentNewsLinks st' = Unified.sentNewsLinks st).
  { intros flag c g now st. cbn zeta. rewrite unified_cycle_eq. cbn zeta.
    assert (E : unified_fetched
                  (response_of {| success := flag; news := None;
                                  crypto_news := c; general_news := g |}) = [])
      by (destruct flag; reflexivity).
    rewrite E. cbn [length Nat.ltb Nat.leb].
    destruct (length (Unified.newsList st) =? 0)%nat; split; reflexivity. }
  split; [exact Hp|]. split; [intros l now st; apply (Hp (Some l) None None)|].
  split; [exact Hu|]. intros c g now st. apply (Hu true (Some c) (Some g)).
Qed.

(** The partitioned variant declares the seen-link set and never writes
    to it: no run of cycles changes it. *)
Theorem partitioned_seen_links_untouched tza cs st :
  Partitioned.sentNewsLinks (partitioned_cycles tza cs st)
  = Partitioned.sentNewsLinks st.
Proof.
  unfold partitioned_cycles. revert st.
  induction cs as [|[o now] r IH]; intros st; [reflexivity|].
  cbn [foldl fst snd]. rewrite IH. rewrite partitioned_cycle_eq. cbn zeta.
  assert (Hrender : ∀ s,
    Partitioned.sentNewsLinks
      (match Partitioned.displayNews tza now s with
       | (Normal _, s') => snd (Partitioned.showLoading false
                                  (snd (Partitioned.updateStats now s')))
       | (Throw _, s') => snd (Partitioned.showLoading false
                                 (snd (Partitioned.showErrorMessage s')))
       end) = Partitioned.sentNewsLinks s).
  { intros s. rewrite displayNews_eq.
    destruct (Partitioned.renderList tza now _) as [rg|e]; [|reflexivity].
    destruct (Partitioned.renderList tza now _) as [rc|e]; reflexivity. }
  destruct (Partitioned.fetchNewsFromCollector o) as [[data|]|e].
  - now rewrite Hrender.
  - destruct (_ && _)%bool; [reflexivity|]. now rewrite Hrender.
  - reflexivity.
Qed.

End RenderFurther.

(* ================================================================= *)
(** ** The fields of a published string are not validated *)

Section FieldsNotValidated.

Variable tza : Z.

Lemma partitioned_newsTime_fields (a b c d e f : nat) (Y Mo D H Mi S : string) :
  is_field a Y = true -> is_field b Mo = true -> is_field c D = true ->
  is_field d H = true -> is_field e Mi = true -> is_field f S = true ->
  Partitioned.newsTime_of tza
    (PubString ((Y +:+ "-" +:+ Mo +:+ "-" +:+ D) +:+ " "
                +:+ (H +:+ ":" +:+ Mi +:+ ":" +:+ S)))
  = Normal (Date_of_fields tza (Num (field_value Y)) (Num (field_value Mo - 1))
              (Num (field_value D)) (Num (field_value H))
              (Num (field_value Mi)) (Num (field_value S))).
Proof.
  intros HY HMo HD HH HMi HS.
  destruct (field_Number _ _ HY) as [NY _], (field_Number _ _ HMo) as [NMo _],
    (field_Number _ _ HD) as [ND _], (field_Number _ _ HH) as [NH _],
    (field_Number _ _ HMi) as [NMi _], (field_Number _ _ HS) as [NS _].
  unfold Partitioned.newsTime_of.
  change ((Y +:+ "-" +:+ Mo +:+ "-" +:+ D) +:+ " "
          +:+ (H +:+ ":" +:+ Mi +:+ ":" +:+ S))
    with ((Y +:+ "-" +:+ Mo +:+ "-" +:+ D)
          +:+ String " " (H +:+ ":" +:+ Mi +:+ ":" +:+ S)).
  rewrite split_app, split_no_sep.
  - cbn [nth_part lookup list_lookup Partitioned.numbers_of mbind Completion_bind].
    change (Y +:+ "-" +:+ Mo +:+ "-" +:+ D)
      with (Y +:+ String "-" (Mo +:+ String "-" D)).
    change (H +:+ ":" +:+ Mi +:+ ":" +:+ S)
      with (H +:+ String ":" (Mi +:+ String ":" S)).
    rewrite !split_app, !split_no_sep
      by (eapply field_no_char; [reflexivity|eassumption]).
    cbn [map nth_number lookup list_lookup].
    now rewrite NY, NMo, ND, NH, NMi, NS.
  - rewrite !has_char_app.
    rewrite (field_no_char d " " H), (field_no_char e " " Mi),
      (field_no_char f " " S) by (reflexivity || assumption). reflexivity.
  - rewrite !has_char_app.
    rewrite (field_no_char a " " Y), (field_no_char b " " Mo),
      (field_no_char c " " D) by (reflexivity || assumption). reflexivity.
Qed.

(** A month field of 00 is not rejected: it is read as December of the
    year before. *)
Theorem partitioned_month_zero_is_december (Y Y' D H Mi S : string)
  (HY : is_field 4 Y = true) (HY' : is_field 4 Y' = true)
  (HD : is_field 2 D = true) (HH : is_field 2 H = true)
  (HMi : is_field 2 Mi = true) (HS : is_field 2 S = true)
  (Hprev : (field_value Y' + 1 = field_value Y)%Z)
  (Hfull : (100 <= field_value Y')%Z) :
  Partitioned.newsTime_of tza
    (PubString ((Y +:+ "-" +:+ "00" +:+ "-" +:+ D) +:+ " "
                +:+ (H +:+ ":" +:+ Mi +:+ ":" +:+ S)))
  = Partitioned.newsTime_of tza
      (PubString ((Y' +:+ "-" +:+ "12" +:+ "-" +:+ D) +:+ " "
                  +:+ (H +:+ ":" +:+ Mi +:+ ":" +:+ S))).
Proof.
  rewrite (partitioned_newsTime_fields 4 2 2 2 2 2 Y "00") by (assumption || reflexivity).
  rewrite (partitioned_newsTime_fields 4 2 2 2 2 2 Y' "12") by (assumption || reflexivity).
  change (field_value "00" - 1)%Z with (-1)%Z.
  change (field_value "12" - 1)%Z with 11%Z.
  cbn [Date_of_fields]. do 2 f_equal.
  unfold local_time_of_fields, MakeDay, MakeFullYear. rewrite <- Hprev.
  destruct (Z.leb_spec (field_value Y' + 1) 99); [lia|].
  destruct (Z.leb_spec (field_value Y') 99); [lia|].
  rewrite !andb_false_r.
  change (-1 / 12)%Z with (-1)%Z. change (-1 mod 12)%Z with 11%Z.
  change (11 / 12)%Z with 0%Z. change (11 mod 12)%Z with 11%Z.
  replace (field_value Y' + 1 + -1)%Z with (field_value Y' + 0)%Z by lia.
  reflexivity.
Qed.

(** A year field below 0100 is not read as written: the Date constructor
    takes a year from 0 to 99 for a year of the 1900s. *)
Theorem partitioned_short_year_is_1900s (Y Y' Mo D H Mi S : string)
  (HY : is_field 4 Y = true) (HY' : is_field 4 Y' = true)
  (HMo : is_field 2 Mo = true)
  (HD : is_field 2 D = true) (HH : is_field 2 H = true)
  (HMi : is_field 2 Mi = true) (HS : is_field 2 S = true)
  (Hshort : (field_value Y <= 99)%Z)
  (Hcentury : (field_value Y' = 1900 + field_value Y)%Z) :
  Partitioned.newsTime_of tza
    (PubString ((Y +:+ "-" +:+ Mo +:+ "-" +:+ D) +:+ " "
                +:+ (H +:+ ":" +:+ Mi +:+ ":" +:+ S)))
  = Partitioned.newsTime_of tza
      (PubString ((Y' +:+ "-" +:+ Mo +:+ "-" +:+ D) +:+ " "
                  +:+ (H +:+ ":" +:+ Mi +:+ ":" +:+ S))).
Proof.
  rewrite (partitioned_newsTime_fields 4 2 2 2 2 2 Y Mo) by assumption.
  rewrite (partitioned_newsTime_fields 4 2 2 2 2 2 Y' Mo) by assumption.
  cbn [Date_of_fields]. do 2 f_equal.
  unfold local_time_of_fields, MakeFullYear. rewrite Hcentury.
  destruct (field_Number _ _ HY) as [_ BY].
  destruct (Z.leb_spec 0 (field_value Y)); [|lia].
  destruct (Z.leb_spec (field_value Y) 99); [|lia].
  destruct (Z.leb_spec (1900 + field_value Y) 99); [lia|].
  rewrite andb_false_r. reflexivity.
Qed.

End FieldsNotValidated.

Lemma partitioned_month_zero_is_december_witness :
  is_field 4 "2025" = true ∧ is_field 4 "2024" = true ∧
  (field_value "2024" + 1 = field_value "2025")%Z ∧
  (100 <= field_value "2024")%Z ∧
  Partitioned.newsTime_of kst (PubString "2025-00-15 10:20:30")
  = Partitioned.newsTime_of kst (PubString "2024-12-15 10:20:30").
Proof.
  split; [reflexivity|]. split; [reflexivity|]. split; [reflexivity|].
  split; [vm_compute; discriminate|].
  exact (partitioned_month_zero_is_december kst "2025" "2024" "15" "10" "20" "30"
           eq_refl eq_refl eq_refl eq_refl eq_refl eq_refl eq_refl
           ltac:(vm_compute; discriminate)).
Defined.

Lemma partitioned_short_year_is_1900s_witness :
  is_field 4 "0025" = true ∧ is_field 4 "1925" = true ∧
  (field_value "0025" <= 99)%Z ∧
  (field_value "1925" = 1900 + field_value "0025")%Z ∧
  Partitioned.newsTime_of kst (PubString "0025-10-29 00:30:57")
  = Partitioned.newsTime_of kst (PubString "1925-10-29 00:30:57").
Proof.
  split; [reflexivity|]. split; [reflexivity|].
  split; [vm_compute; discriminate|]. split; [reflexivity|].
  exact (partitioned_short_year_is_1900s kst "0025" "1925" "10" "29" "00" "30" "57"
           eq_refl eq_refl eq_refl eq_refl eq_refl eq_refl eq_refl
           ltac:(vm_compute; discriminate) eq_refl).
Defined.

(* ================================================================= *)
(** ** The unified list over a run of cycles *)

Section UnifiedRuns.

Variable DateParse : string -> JSNum.

Lemma unified_cycles_app cs1 cs2 st :
  unified_cycles DateParse (cs1 ++ cs2) st
  = unified_cycles DateParse cs2 (unified_cycles DateParse cs1 st).
Proof. unfold unified_cycles. apply foldl_app. Qed.

Lemma unified_cycles_no_data cs :
  ∀ st, (∀ c, c ∈ cs -> unified_fetched (fst c) = []) ->
        Unified.newsList (unified_cycles DateParse cs st) = Unified.newsList st.
Proof.
  induction cs as [|[o now] r IH]; intros st H; [reflexivity|].
  unfold unified_cycles. cbn [foldl fst snd].
  fold (unified_cycles DateParse r (Unified.cycle DateParse o now st)).
  rewrite IH by (intros c Hc; apply H; now apply list_elem_of_further).
  rewrite unified_cycle_newsList.
  pose proof (H (o, now) (list_elem_of_here _ _)) as Ho. cbn [fst] in Ho.
  now rewrite Ho.
Qed.

(** After a run of cycles the list is the answer of the last cycle whose
    fetch returned items, cut to the cap, whatever came before it and
    however many cycles without data came after it. *)
Theorem unified_list_is_last_answer
  (cs1 cs2 : list (FetchOutcome * Z)) (o : FetchOutcome) (now : Z)
  (st : Unified.State)
  (Hitems : unified_fetched o ≠ [])
  (Hafter : ∀ c, c ∈ cs2 -> unified_fetched (fst c) = []) :
  Unified.newsList (unified_cycles DateParse (cs1 ++ (o, now) :: cs2) st)
  = take Unified.maxNewsCount (unified_fetched o).
Proof.
  rewrite unified_cycles_app.
  change ((o, now) :: cs2) with ([(o, now)] ++ cs2)%list.
  rewrite unified_cycles_app, unified_cycles_no_data by exact Hafter.
  unfold unified_cycles at 1. cbn [foldl fst snd].
  rewrite unified_cycle_newsList.
  destruct (unified_fetched o); [congruence|reflexivity].
Qed.

End UnifiedRuns.

Lemma unified_list_is_last_answer_witness :
  unified_fetched (unified_payload [sample_item "b" (PubNative (Num 0))]) ≠ [] ∧
  (∀ c, c ∈ [(Rejected, 90000%Z); (success_false, 120000%Z)] ->
        unified_fetched (fst c) = []) ∧
  Unified.newsList
    (unified_cycles parse_nothing
       ([(unified_payload six_items, 30000%Z)]
        ++ (unified_payload [sample_item "b" (PubNative (Num 0))], 60000%Z)
        :: [(Rejected, 90000%Z); (success_false, 120000%Z)])
       (Unified.constructor None))
  = take Unified.maxNewsCount
      (unified_fetched (unified_payload [sample_item "b" (PubNative (Num 0))])).
Proof.
  assert (H1 : unified_fetched (unified_payload [sample_item "b" (PubNative (Num 0))]) ≠ [])
    by (vm_compute; discriminate).
  assert (H2 : ∀ c, c ∈ [(Rejected, 90000%Z); (success_false, 120000%Z)] ->
                    unified_fetched (fst c) = []).
  { intros c Hc. apply elem_of_cons in Hc as [->|Hc]; [reflexivity|].
    apply list_elem_of_singleton in Hc as ->. reflexivity. }
  split; [exact H1|]. split; [exact H2|].
  exact (unified_list_is_last_answer parse_nothing
           [(unified_payload six_items, 30000%Z)]
           [(Rejected, 90000%Z); (success_false, 120000%Z)]
           (unified_payload [sample_item "b" (PubNative (Num 0))]) 60000
           (Unified.constructor None) H1 H2).
Defined.
